(** * react-geocanvas: the geometry engine of [GeoJSONCanvas.tsx]

    A shallow embedding of the projector, the feature extractor, the bounds
    calculator, the fit algorithm, the renderer and the hit-tester of
    [src/GeoJSONCanvas.tsx], followed by the properties established about
    them.

    Numbers.  A JavaScript number is modelled as an extended real: the three
    special values [NaN], [+Infinity], [-Infinity], or a finite value carried
    by a real number.  Arithmetic on finite values is exact (rounding and
    overflow of binary64 are not modelled, and there is a single zero, the
    positive one); the special values follow IEEE 754 as ECMAScript does.

    What exact arithmetic hides.  In binary64 rounding merges nearby values
    (the longitudes 0 and 1e-15 project to the same abscissa), a product
    of large finite values overflows to an infinity, and [Math.tan],
    [Math.cos] and [Math.log] are approximations whose arguments never meet
    a pole exactly.  The embedding shows none of these effects; a
    property that would rest on them, such as the strict order of two
    projected abscissas or the minimality of a computed distance, is not
    stated on it. *)

From Stdlib Require Import Reals Lra Lia List String ZArith Bool DecimalString Permutation.
Import ListNotations.

Set Implicit Arguments.
Set Warnings "-register-all".

(* ================================================================== *)
(** * Numbers *)
(* ================================================================== *)

Module JsNum.

Local Open Scope R_scope.

Inductive jsnum : Type :=
| NaN
| PInf
| NInf
| Fin (r : R).

(** Three-way comparison of two reals. *)
Definition Rcmp (a b : R) : comparison :=
  match total_order_T a b with
  | inleft (left _) => Lt
  | inleft (right _) => Eq
  | inright _ => Gt
  end.

(** Comparison of two numbers; [None] when either is [NaN]. *)
Definition cmp (a b : jsnum) : option comparison :=
  match a, b with
  | NaN, _ | _, NaN => None
  | PInf, PInf | NInf, NInf => Some Eq
  | PInf, _ | _, NInf => Some Gt
  | NInf, _ | _, PInf => Some Lt
  | Fin x, Fin y => Some (Rcmp x y)
  end.

(** [a < b], [a <= b], [a > b], [a === b] on numbers. *)
Definition ltb (a b : jsnum) : bool :=
  match cmp a b with Some Lt => true | _ => false end.
Definition leb (a b : jsnum) : bool :=
  match cmp a b with Some Lt | Some Eq => true | _ => false end.
Definition gtb (a b : jsnum) : bool :=
  match cmp a b with Some Gt => true | _ => false end.
Definition eqb (a b : jsnum) : bool :=
  match cmp a b with Some Eq => true | _ => false end.

(** ToBoolean on a number: [0] and [NaN] are falsy. *)
Definition truthy (a : jsnum) : bool :=
  match a with
  | NaN => false
  | PInf | NInf => true
  | Fin r => match Rcmp r 0 with Eq => false | _ => true end
  end.

(** [Number.isFinite]. *)
Definition is_finite (a : jsnum) : bool :=
  match a with Fin _ => true | _ => false end.

Definition neg (a : jsnum) : jsnum :=
  match a with
  | NaN => NaN
  | PInf => NInf
  | NInf => PInf
  | Fin r => Fin (- r)
  end.

Definition add (a b : jsnum) : jsnum :=
  match a, b with
  | NaN, _ | _, NaN => NaN
  | PInf, NInf | NInf, PInf => NaN
  | PInf, _ | _, PInf => PInf
  | NInf, _ | _, NInf => NInf
  | Fin x, Fin y => Fin (x + y)
  end.

Definition sub (a b : jsnum) : jsnum := add a (neg b).

(** An infinity times a number of the given sign. *)
Definition scale_inf (inf : jsnum) (sign : comparison) : jsnum :=
  match sign with
  | Gt => inf
  | Lt => neg inf
  | Eq => NaN
  end.

Definition mul (a b : jsnum) : jsnum :=
  match a, b with
  | NaN, _ | _, NaN => NaN
  | Fin x, Fin y => Fin (x * y)
  | Fin x, inf => scale_inf inf (Rcmp x 0)
  | inf, Fin y => scale_inf inf (Rcmp y 0)
  | PInf, PInf | NInf, NInf => PInf
  | PInf, NInf | NInf, PInf => NInf
  end.

Definition div (a b : jsnum) : jsnum :=
  match a, b with
  | NaN, _ | _, NaN => NaN
  | Fin x, Fin y =>
      match Rcmp y 0 with
      | Eq => match Rcmp x 0 with Gt => PInf | Lt => NInf | Eq => NaN end
      | _ => Fin (x / y)
      end
  | Fin _, _ => Fin 0
  | inf, Fin y => match Rcmp y 0 with Lt => neg inf | _ => inf end
  | _, _ => NaN
  end.

(** [Math.min] and [Math.max] of two arguments. *)
Definition Math_min (a b : jsnum) : jsnum :=
  match cmp a b with
  | None => NaN
  | Some Gt => b
  | Some _ => a
  end.

Definition Math_max (a b : jsnum) : jsnum :=
  match cmp a b with
  | None => NaN
  | Some Lt => b
  | Some _ => a
  end.

Definition Math_PI : jsnum := Fin PI.

Definition Math_log (a : jsnum) : jsnum :=
  match a with
  | NaN | NInf => NaN
  | PInf => PInf
  | Fin r =>
      match Rcmp r 0 with
      | Gt => Fin (ln r)
      | Eq => NInf
      | Lt => NaN
      end
  end.

Definition Math_cos (a : jsnum) : jsnum :=
  match a with
  | Fin r => Fin (cos r)
  | _ => NaN
  end.

(** The tangent is the quotient of sine by cosine, taken with the division
    of numbers, so a pole of the tangent yields an infinity. *)
Definition Math_tan (a : jsnum) : jsnum :=
  match a with
  | Fin r => div (Fin (sin r)) (Fin (cos r))
  | _ => NaN
  end.

(** [Math.hypot] of two arguments: an infinite argument wins over [NaN]. *)
Definition Math_hypot (a b : jsnum) : jsnum :=
  match a, b with
  | PInf, _ | NInf, _ | _, PInf | _, NInf => PInf
  | NaN, _ | _, NaN => NaN
  | Fin x, Fin y => Fin (sqrt (x * x + y * y))
  end.

(** [a || b] on numbers. *)
Definition or_else (a b : jsnum) : jsnum := if truthy a then a else b.

End JsNum.

Import JsNum.

Declare Scope js_scope.
Delimit Scope js_scope with js.
Bind Scope js_scope with jsnum.
Notation "a + b" := (add a b) : js_scope.
Notation "a - b" := (sub a b) : js_scope.
Notation "a * b" := (mul a b) : js_scope.
Notation "a / b" := (div a b) : js_scope.
Notation "- a" := (neg a) : js_scope.
Notation "a <=? b" := (leb a b) : js_scope.
Notation "a <? b" := (ltb a b) : js_scope.
Notation "a >? b" := (gtb a b) : js_scope.
Notation "a =? b" := (eqb a b) : js_scope.
Notation "a '|||' b" := (or_else a b) (at level 50, left associativity) : js_scope.

(** Numeric literals of the source. *)
Definition num (z : Z) : jsnum := Fin (IZR z).

(* ================================================================== *)
(** * Projector *)
(* ================================================================== *)

(** The object [{ x, y }]. *)
Module XY.
Record t : Type := mk { x : jsnum; y : jsnum }.
End XY.

Definition lonLatToMercator (lon lat : jsnum) : XY.t :=
  let x := ((lon + num 180) / num 360)%js in
  let y := ((num 1 -
             Math_log (Math_tan ((lat * Math_PI) / num 180)
                       + num 1 / Math_cos ((lat * Math_PI) / num 180))
             / Math_PI) / num 2)%js in
  XY.mk x y.

(* ================================================================== *)
(** * Values and exceptions *)
(* ================================================================== *)

(** The [any]-typed data the component receives: the values of JSON, plus
    [undefined] and the non-finite numbers.  An object is the list of its
    own properties; a property is looked up by its first occurrence. *)
Inductive value : Type :=
| VUndef
| VNull
| VBool (b : bool)
| VNum (n : jsnum)
| VStr (s : string)
| VArr (items : list value)
| VObj (props : list (string * value)).

(** What an evaluation can raise.  [NotModelled] is not a JavaScript
    exception: it marks an evaluation that leaves the embedding (a string,
    array or object reaching an arithmetic operator, where JavaScript would
    convert it). *)
Inductive error : Type := TypeError | RangeError | NotModelled.

Inductive result (A : Type) : Type :=
| Ok (a : A)
| Throw (e : error).
Arguments Throw {A} e.

Definition bind {A B : Type} (m : result A) (k : A -> result B) : result B :=
  match m with
  | Ok a => k a
  | Throw e => Throw e
  end.

Notation "x <- m ;; k" := (bind m (fun x => k))
  (at level 61, m at next level, right associativity).

(** A [for (const x of xs)] loop threading an accumulator. *)
Fixpoint for_of {A S : Type} (body : A -> S -> result S) (xs : list A) (s : S)
  : result S :=
  match xs with
  | [] => Ok s
  | x :: xs' => s' <- body x s ;; for_of body xs' s'
  end.

(** ToBoolean. *)
Definition to_boolean (v : value) : bool :=
  match v with
  | VUndef | VNull => false
  | VBool b => b
  | VNum n => truthy n
  | VStr s => negb (String.eqb s "")
  | VArr _ | VObj _ => true
  end.

(** [v || w]. *)
Definition vor (v w : value) : value := if to_boolean v then v else w.

(** [v === 'literal']. *)
Definition is_str (v : value) (lit : string) : bool :=
  match v with
  | VStr s => String.eqb s lit
  | _ => false
  end.

Fixpoint lookup (k : string) (props : list (string * value)) : value :=
  match props with
  | [] => VUndef
  | (k', v) :: rest => if String.eqb k k' then v else lookup k rest
  end.

Definition string_of_nat (i : nat) : string :=
  NilEmpty.string_of_uint (Nat.to_uint i).

(** The one-character strings a string is iterated into.  The strings of
    the embedding are read as sequences of ASCII characters, on which the
    iteration of JavaScript, by code point, goes character by character. *)
Fixpoint chars (s : string) : list value :=
  match s with
  | EmptyString => []
  | String c s' => VStr (String c EmptyString) :: chars s'
  end.

Definition of_nat (n : nat) : jsnum := num (Z.of_nat n).

(** [v.k] for a property name [k]. *)
Definition get_prop (v : value) (k : string) : result value :=
  match v with
  | VUndef | VNull => Throw TypeError
  | VObj props => Ok (lookup k props)
  | VArr items =>
      Ok (if String.eqb k "length" then VNum (of_nat (List.length items)) else VUndef)
  | VStr s =>
      Ok (if String.eqb k "length" then VNum (of_nat (String.length s)) else VUndef)
  | VBool _ | VNum _ => Ok VUndef
  end.

(** [v[i]] for an index [i]. *)
Definition get_index (v : value) (i : nat) : result value :=
  match v with
  | VUndef | VNull => Throw TypeError
  | VArr items => Ok (nth i items VUndef)
  | VStr s => Ok (nth i (chars s) VUndef)
  | VObj props => Ok (lookup (string_of_nat i) props)
  | VBool _ | VNum _ => Ok VUndef
  end.

(** The elements a [for ... of] loop or an array pattern draws from [v];
    only arrays and strings are iterable. *)
Definition iterate (v : value) : result (list value) :=
  match v with
  | VArr items => Ok items
  | VStr s => Ok (chars s)
  | _ => Throw TypeError
  end.

(** ToNumber, on the values whose conversion agrees under [+] and [*]. *)
Definition to_number (v : value) : result jsnum :=
  match v with
  | VNum n => Ok n
  | VUndef => Ok NaN
  | VNull => Ok (num 0)
  | VBool b => Ok (if b then num 1 else num 0)
  | VStr _ | VArr _ | VObj _ => Throw NotModelled
  end.

(* ================================================================== *)
(** * Geometry extractor *)
(* ================================================================== *)

(** [{ type: 'Feature', geometry: g, properties: {} }] *)
Definition synthetic (g : value) : value :=
  VObj [("type", VStr "Feature"); ("geometry", g); ("properties", VObj [])]%string.

Definition extractFeatures (geojson : value) : result (list value) :=
  if negb (to_boolean geojson) then Ok []
  else
    type <- get_prop geojson "type" ;;
    if is_str type "FeatureCollection" then
      features <- get_prop geojson "features" ;;
      iterate (vor features (VArr []))
    else if is_str type "Feature" then Ok [geojson]
    else if is_str type "GeometryCollection" then
      geometries <- get_prop geojson "geometries" ;;
      gs <- iterate (vor geometries (VArr [])) ;;
      Ok (map synthetic gs)
    else
      coordinates <- get_prop geojson "coordinates" ;;
      if to_boolean type && to_boolean coordinates then Ok [synthetic geojson]
      else Ok [].

(* ================================================================== *)
(** * Bounds calculator *)
(* ================================================================== *)

Record bounds : Type :=
  mkBounds { minX : jsnum; minY : jsnum; maxX : jsnum; maxY : jsnum }.

(** The four assignments of [visitCoords] for one projected leaf. *)
Definition extend (b : bounds) (p : XY.t) : bounds :=
  {| minX := Math_min (minX b) (XY.x p);
     minY := Math_min (minY b) (XY.y p);
     maxX := Math_max (maxX b) (XY.x p);
     maxY := Math_max (maxY b) (XY.y p) |}.

(** [visitCoords]: a leaf is a value whose entries 0 and 1 are numbers;
    anything else is iterated.  A non-empty string is iterated into
    one-character strings, each of which is again a non-empty string: the
    recursion does not end and the engine raises a [RangeError]. *)
Fixpoint visitCoords (coords : value) (b : bounds) {struct coords} : result bounds :=
  c0 <- get_index coords 0 ;;
  c1 <- get_index coords 1 ;;
  match c0, c1 with
  | VNum lon, VNum lat =>
      _ <- iterate coords ;;
      Ok (extend b (lonLatToMercator lon lat))
  | _, _ =>
      match coords with
      | VArr items =>
          (fix each (cs : list value) (b : bounds) {struct cs} : result bounds :=
             match cs with
             | [] => Ok b
             | c :: cs' => b' <- visitCoords c b ;; each cs' b'
             end) items b
      | VStr EmptyString => Ok b
      | VStr _ => Throw RangeError
      | _ => Throw TypeError
      end
  end.

Definition initialBounds : bounds :=
  {| minX := PInf; minY := PInf; maxX := NInf; maxY := NInf |}.

(** The body of the loop over the features. *)
Definition visitFeature (f : value) (b : bounds) : result bounds :=
  geom <- get_prop f "geometry" ;;
  if negb (to_boolean geom) then Ok b
  else
    type <- get_prop geom "type" ;;
    coordinates <- get_prop geom "coordinates" ;;
    if is_str type "Point" then visitCoords coordinates b
    else if is_str type "MultiPoint" || is_str type "LineString"
    then visitCoords coordinates b
    else if is_str type "MultiLineString" || is_str type "Polygon"
    then visitCoords coordinates b
    else if is_str type "MultiPolygon" then visitCoords coordinates b
    else if is_str type "GeometryCollection" then
      geometries <- get_prop geom "geometries" ;;
      gs <- iterate (vor geometries (VArr [])) ;;
      for_of (fun g b => c <- get_prop g "coordinates" ;; visitCoords c b) gs b
    else Ok b.

(** [None] is the [null] result. *)
Definition getBoundsOfGeojson (geojson : value) : result (option bounds) :=
  features <- extractFeatures geojson ;;
  if Nat.eqb (List.length features) 0 then Ok None
  else
    b <- for_of visitFeature features initialBounds ;;
    Ok (Some b).

(* ================================================================== *)
(** * Styles, viewport and component state *)
(* ================================================================== *)

(** The style types of [src/types/index.ts]; an optional field left out is
    [None]. *)
Module PointStyle.
Record t : Type := mk
  { radius : option jsnum; fill : option string;
    stroke : option string; lineWidth : option jsnum }.
End PointStyle.

Module LineStyle.
Record t : Type := mk
  { stroke : option string; lineWidth : option jsnum;
    lineDash : option (list jsnum) }.
End LineStyle.

Module FillStyle.
Record t : Type := mk
  { fill : option string; stroke : option string; lineWidth : option jsnum }.
End FillStyle.

Record Styles : Type := mkStyles
  { point : option PointStyle.t;
    line : option LineStyle.t;
    polygon : option FillStyle.t }.

(** [{ ...defaultStyles, ...styles }]: every class is present. *)
Record MergedStyles : Type := mkMerged
  { mpoint : PointStyle.t; mline : LineStyle.t; mpolygon : FillStyle.t }.

Definition defaultStyles : MergedStyles :=
  {| mpoint := PointStyle.mk (Some (num 4)) (Some "#1976d2"%string)
                 (Some "#fff"%string) (Some (num 1));
     mline := LineStyle.mk (Some "#1976d2"%string) (Some (num 2)) None;
     mpolygon := FillStyle.mk (Some "rgba(25,118,210,0.2)"%string)
                   (Some "#1976d2"%string) (Some (num 1)) |}.

Definition from_option {A : Type} (o : option A) (d : A) : A :=
  match o with Some a => a | None => d end.

Definition mergedStyles (styles : Styles) : MergedStyles :=
  {| mpoint := from_option (point styles) (mpoint defaultStyles);
     mline := from_option (line styles) (mline defaultStyles);
     mpolygon := from_option (polygon styles) (mpolygon defaultStyles) |}.

(** [field || d] for an optional numeric field. *)
Definition num_or (field : option jsnum) (d : jsnum) : jsnum :=
  match field with
  | Some n => or_else n d
  | None => d
  end.

(** An optional string field that is truthy. *)
Definition str_set (field : option string) : option string :=
  match field with
  | Some s => if String.eqb s "" then None else Some s
  | None => None
  end.

Record viewport : Type := mkViewport
  { scale : jsnum; translateX : jsnum; translateY : jsnum }.

(** An entry of [stateRef.current.features]. *)
Record ifeature : Type := mkIFeature { id : value; feature : value }.

Record state : Type := mkState
  { vp : viewport;
    features : list ifeature;
    featureBounds : option bounds;
    dpr : jsnum }.

(** What the code reads of the canvas element; [has2d] tells whether
    [getContext('2d')] yields a context. *)
Record canvas : Type := mkCanvas
  { clientWidth : jsnum; clientHeight : jsnum; has2d : bool }.

Definition initialState (devicePixelRatio : jsnum) : state :=
  {| vp := mkViewport (num 1) (num 0) (num 0);
     features := [];
     featureBounds := None;
     dpr := devicePixelRatio |}.

Fixpoint map_index {A B : Type} (f : A -> nat -> B) (i : nat) (l : list A) : list B :=
  match l with
  | [] => []
  | a :: l' => f a i :: map_index f (S i) l'
  end.

(** [buildInternalFeatures]: the feature list is stored before the bounds
    are computed, so it stays stored when the bounds computation throws. *)
Definition buildInternalFeatures (getFeatureId : option (value -> nat -> value))
    (gj : value) (st : state) : state * result unit :=
  match extractFeatures gj with
  | Throw e => (st, Throw e)
  | Ok fs =>
      let features :=
        map_index (fun f i =>
          {| id := match getFeatureId with
                   | Some g => g f i
                   | None => VNum (of_nat i)
                   end;
             feature := f |}) 0 fs in
      let st1 := mkState (vp st) features (featureBounds st) (dpr st) in
      match getBoundsOfGeojson gj with
      | Throw e => (st1, Throw e)
      | Ok b => (mkState (vp st) features b (dpr st), Ok tt)
      end
  end.

Definition mercatorToCanvas (v : viewport) (xNorm yNorm ctxW ctxH : jsnum) : XY.t :=
  XY.mk (xNorm * ctxW * scale v + translateX v)%js
        (yNorm * ctxH * scale v + translateY v)%js.

(** [lonLatToMercator] applied to two [any]-typed arguments. *)
Definition project (lon lat : value) : result XY.t :=
  lon' <- to_number lon ;;
  lat' <- to_number lat ;;
  Ok (lonLatToMercator lon' lat').

(* ================================================================== *)
(** * Renderer *)
(* ================================================================== *)

(** The calls issued on the 2D context. *)
Inductive call : Type :=
| setTransform (a b c d e f : jsnum)
| fillRect (x y w h : jsnum)
| clearRect (x y w h : jsnum)
| beginPath
| arc (x y r a0 a1 : jsnum)
| moveTo (x y : jsnum)
| lineTo (x y : jsnum)
| fill
| stroke
| set_fillStyle (s : string)
| set_strokeStyle (s : string)
| set_lineWidth (n : jsnum)
| setLineDash (segments : list jsnum).

(** A drawing action: the calls it issues, in order, and how it ends.  The
    calls issued before an exception stay issued. *)
Definition draw (A : Type) : Type := (list call * result A)%type.

Definition dret {A : Type} (a : A) : draw A := ([], Ok a).

Definition dbind {A B : Type} (m : draw A) (k : A -> draw B) : draw B :=
  match m with
  | (t1, Ok a) => let (t2, r) := k a in (t1 ++ t2, r)
  | (t1, Throw e) => (t1, Throw e)
  end.

Definition emit (c : call) : draw unit := ([c], Ok tt).

Definition lift {A : Type} (r : result A) : draw A := ([], r).

Notation "x <~ m ;; k" := (dbind m (fun x => k))
  (at level 61, m at next level, right associativity).
Notation "m ;;; k" := (dbind m (fun _ => k))
  (at level 61, right associativity).

Fixpoint dfor_of {A S : Type} (body : A -> S -> draw S) (xs : list A) (s : S)
  : draw S :=
  match xs with
  | [] => dret s
  | a :: xs' => s' <~ body a s ;; dfor_of body xs' s'
  end.

Definition dwhen (o : option string) (k : string -> draw unit) : draw unit :=
  match o with
  | Some s => k s
  | None => dret tt
  end.

Section Renderer.

Variable styles : MergedStyles.
Variable v : viewport.
Variables ctxW ctxH : jsnum.

Let tLine := mline styles.
Let tPoly := mpolygon styles.
Let tPoint := mpoint styles.

(** The inner function [drawCoords]; [None] is its [null]. *)
Definition drawCoords (coords : value) : result (option XY.t) :=
  c0 <- get_index coords 0 ;;
  c1 <- get_index coords 1 ;;
  match c0, c1 with
  | VNum lon, VNum lat =>
      _ <- iterate coords ;;
      let p := lonLatToMercator lon lat in
      Ok (Some (mercatorToCanvas v (XY.x p) (XY.y p) ctxW ctxH))
  | _, _ => Ok None
  end.

(** The circle of a point marker, filled then stroked. *)
Definition drawMarker (c : XY.t) : draw unit :=
  emit beginPath ;;;
  emit (arc (XY.x c) (XY.y c) (num_or (PointStyle.radius tPoint) (num 3))
            (num 0) (Math_PI * num 2)%js) ;;;
  dwhen (str_set (PointStyle.fill tPoint))
    (fun s => emit (set_fillStyle s) ;;; emit fill) ;;;
  dwhen (str_set (PointStyle.stroke tPoint))
    (fun s => emit (set_lineWidth (num_or (PointStyle.lineWidth tPoint) (num 1))) ;;;
              emit (set_strokeStyle s) ;;; emit stroke).

(** The marker of a Point, or of one coordinate of a MultiPoint: nothing
    is drawn when [drawCoords] yields [null]. *)
Definition drawPoint (coord : value) (_ : unit) : draw unit :=
  c <~ lift (drawCoords coord) ;;
  match c with
  | None => dret tt
  | Some c => drawMarker c
  end.

(** One coordinate of a path; the state is the flag [started]. *)
Definition drawVertex (coord : value) (started : bool) : draw bool :=
  c <~ lift (drawCoords coord) ;;
  match c with
  | None => dret started
  | Some c =>
      if started then emit (lineTo (XY.x c) (XY.y c)) ;;; dret true
      else emit (moveTo (XY.x c) (XY.y c)) ;;; dret true
  end.

(** [for (const coord of ring)] over a ring or a line. *)
Definition drawRing (ring : value) (started : bool) : draw bool :=
  coords <~ lift (iterate ring) ;;
  dfor_of drawVertex coords started.

Definition drawFeature (f : ifeature) : draw unit :=
  if negb (to_boolean (feature f)) then dret tt
  else
    geom <~ lift (get_prop (feature f) "geometry") ;;
    if negb (to_boolean geom) then dret tt
    else
      type <~ lift (get_prop geom "type") ;;
      coordinates <~ lift (get_prop geom "coordinates") ;;
      if is_str type "Point" then drawPoint coordinates tt
      else if is_str type "MultiPoint" then
        coords <~ lift (iterate coordinates) ;;
        dfor_of drawPoint coords tt
      else if is_str type "LineString" || is_str type "MultiLineString" then
        emit (set_lineWidth (num_or (LineStyle.lineWidth tLine) (num 1))) ;;;
        emit (set_strokeStyle
                (from_option (str_set (LineStyle.stroke tLine)) "#000"%string)) ;;;
        match LineStyle.lineDash tLine with
        | Some d => emit (setLineDash d)
        | None => dret tt
        end ;;;
        emit beginPath ;;;
        lines <~ lift (if is_str type "LineString" then Ok [coordinates]
                       else iterate coordinates) ;;
        dfor_of (fun ring (_ : unit) => _ <~ drawRing ring false ;; dret tt)
                lines tt ;;;
        emit stroke ;;;
        emit (setLineDash [])
      else if is_str type "Polygon" || is_str type "MultiPolygon" then
        polys <~ lift (if is_str type "Polygon" then Ok [coordinates]
                       else iterate coordinates) ;;
        dfor_of (fun poly (_ : unit) =>
                   emit beginPath ;;;
                   rings <~ lift (iterate poly) ;;
                   _ <~ dfor_of drawRing rings false ;;
                   dwhen (str_set (FillStyle.fill tPoly))
                     (fun s => emit (set_fillStyle s) ;;; emit fill) ;;;
                   dwhen (str_set (FillStyle.stroke tPoly))
                     (fun s =>
                        emit (set_lineWidth
                                (num_or (FillStyle.lineWidth tPoly) (num 1))) ;;;
                        emit (set_strokeStyle s) ;;; emit stroke))
                polys tt
      else dret tt.

End Renderer.

(** [render]: nothing without a canvas or a context; else the background,
    then every feature in order.  The resizing of the backing store
    ([canvas.width], [canvas.height]) is not a call on the context and is
    left out. *)
Definition render (styles : MergedStyles) (background : option string)
    (cv : option canvas) (st : state) : draw unit :=
  match cv with
  | None => dret tt
  | Some cv =>
      if negb (has2d cv) then dret tt
      else
        let dpr := or_else (dpr st) (num 1) in
        let cssW := clientWidth cv in
        let cssH := clientHeight cv in
        emit (setTransform dpr (num 0) (num 0) dpr (num 0) (num 0)) ;;;
        match str_set background with
        | Some bg => emit (set_fillStyle bg) ;;; emit (fillRect (num 0) (num 0) cssW cssH)
        | None => emit (clearRect (num 0) (num 0) cssW cssH)
        end ;;;
        dfor_of (fun f (_ : unit) => drawFeature styles (vp st) cssW cssH f)
                (features st) tt
  end.

(* ================================================================== *)
(** * Fit algorithm *)
(* ================================================================== *)

(** [1e-6]. *)
Definition epsilon : jsnum := Fin (1 / 1000000).

Definition worldW (b : bounds) : jsnum := ((maxX b - minX b) ||| epsilon)%js.
Definition worldH (b : bounds) : jsnum := ((maxY b - minY b) ||| epsilon)%js.

(** The viewport [fitBounds] stores for bounds [b] on a canvas of
    [cssW] by [cssH] CSS pixels. *)
Definition fitViewport (padding cssW cssH : jsnum) (b : bounds) : viewport :=
  let worldW := worldW b in
  let worldH := worldH b in
  let scaleX := ((cssW - padding * num 2) / worldW)%js in
  let scaleY := ((cssH - padding * num 2) / worldH)%js in
  let scale := Math_min scaleX scaleY in
  let translateX :=
    (- minX b * cssW * scale + padding
     + (cssW - (worldW * cssW * scale) - padding * num 2) / num 2)%js in
  let translateY :=
    (- minY b * cssH * scale + padding
     + (cssH - (worldH * cssH * scale) - padding * num 2) / num 2)%js in
  mkViewport scale translateX translateY.

(** [fitBounds]: a no-op without a canvas or without bounds; else the new
    viewport is stored and the canvas rendered. *)
Definition fitBounds (styles : MergedStyles) (background : option string)
    (padding : jsnum) (cv : option canvas) (st : state) : state * draw unit :=
  match cv with
  | None => (st, dret tt)
  | Some c =>
      match featureBounds st with
      | None => (st, dret tt)
      | Some b =>
          let st' :=
            mkState (fitViewport padding (clientWidth c) (clientHeight c) b)
                    (features st) (featureBounds st) (dpr st) in
          (st', render styles background cv st')
      end
  end.

(* ================================================================== *)
(** * Hit-tester *)
(* ================================================================== *)

(** [0.0000001]. *)
Definition tiny : jsnum := Fin (1 / 10000000).

(** The test [intersect] of the ray-casting loop, for the vertex
    [(xi, yi)] and the previous vertex [(xj, yj)]. *)
Definition intersect (x y : jsnum) (pi pj : jsnum * jsnum) : bool :=
  let '(xi, yi) := pi in
  let '(xj, yj) := pj in
  negb (Bool.eqb (yi >? y)%js (yj >? y)%js)
  && (x <? (xj - xi) * (y - yi) / (yj - yi + tiny) + xi)%js.

(** The loop [for (i = 0, j = poly.length - 1; i < poly.length; j = i++)]:
    [pj] is the vertex of index [j]. *)
Fixpoint crossings (x y : jsnum) (pj : jsnum * jsnum) (rest : list (jsnum * jsnum))
    (inside : bool) : bool :=
  match rest with
  | [] => inside
  | pi :: rest' =>
      crossings x y pi rest' (if intersect x y pi pj then negb inside else inside)
  end.

Definition pointInPolygon (x y : jsnum) (poly : list (jsnum * jsnum)) : bool :=
  match poly with
  | [] => false
  | p0 :: _ => crossings x y (last poly p0) poly false
  end.

(** [distanceToSegment], returning with the distance the divisors of the
    divisions it evaluated. *)
Definition distanceToSegment_divs (px py x1 y1 x2 y2 : jsnum) : jsnum * list jsnum :=
  let dx := (x2 - x1)%js in
  let dy := (y2 - y1)%js in
  if (dx =? num 0)%js && (dy =? num 0)%js
  then (Math_hypot (px - x1) (py - y1), [])
  else
    let t := (((px - x1) * dx + (py - y1) * dy) / (dx * dx + dy * dy))%js in
    let tt := Math_max (num 0) (Math_min (num 1) t) in
    let cx := (x1 + tt * dx)%js in
    let cy := (y1 + tt * dy)%js in
    (Math_hypot (px - cx) (py - cy), [(dx * dx + dy * dy)%js]).

Definition distanceToSegment (px py x1 y1 x2 y2 : jsnum) : jsnum :=
  fst (distanceToSegment_divs px py x1 y1 x2 y2).

(** A loop that returns from the enclosing function at the first element
    for which [body] yields [true]. *)
Fixpoint for_first {A : Type} (body : A -> result bool) (xs : list A) : result bool :=
  match xs with
  | [] => Ok false
  | a :: xs' => hit <- body a ;; if hit then Ok true else for_first body xs'
  end.

Fixpoint map_result {A B : Type} (f : A -> result B) (xs : list A) : result (list B) :=
  match xs with
  | [] => Ok []
  | a :: xs' => b <- f a ;; bs <- map_result f xs' ;; Ok (b :: bs)
  end.

(** [ring.map(callback)]: only an array has the method. *)
Definition array_map {B : Type} (f : value -> result B) (ring : value) : result (list B) :=
  match ring with
  | VArr items => map_result f items
  | _ => Throw TypeError
  end.

(** The number of turns of [for (vi = 0; vi < line.length - 1; vi++)].  An
    object with a [length] of its own is outside the embedding. *)
Definition segment_count (line : value) : result nat :=
  match line with
  | VUndef | VNull => Throw TypeError
  | VArr items => Ok (List.length items - 1)%nat
  | VStr s => Ok (String.length s - 1)%nat
  | VObj props =>
      match lookup "length" props with
      | VUndef => Ok 0%nat
      | _ => Throw NotModelled
      end
  | VBool _ | VNum _ => Ok 0%nat
  end.

Section HitTester.

Variable styles : MergedStyles.
Variable v : viewport.
Variables cssW cssH : jsnum.
Variables x y : jsnum.

(** A position projected and moved to canvas pixels. *)
Definition toPixel (coord : value) : result XY.t :=
  c0 <- get_index coord 0 ;;
  c1 <- get_index coord 1 ;;
  p <- project c0 c1 ;;
  Ok (mercatorToCanvas v (XY.x p) (XY.y p) cssW cssH).

Definition hitLine (tolerance : jsnum) (line : value) : result bool :=
  n <- segment_count line ;;
  for_first
    (fun vi =>
       a <- get_index line vi ;;
       b <- get_index line (vi + 1) ;;
       pa <- toPixel a ;;
       pb <- toPixel b ;;
       let d := distanceToSegment x y (XY.x pa) (XY.y pa) (XY.x pb) (XY.y pb) in
       Ok (d <=? tolerance)%js)
    (seq 0 n).

Definition hitPolygon (poly : value) : result bool :=
  ring <- get_index poly 0 ;;
  ringPx <- array_map (fun coord => c <- toPixel coord ;; Ok (XY.x c, XY.y c)) ring ;;
  Ok (pointInPolygon x y ringPx).

(** The body of the loop of [hitTest] for the feature [f]: [true] when the
    loop returns [f]. *)
Definition hitFeature (f : ifeature) : result bool :=
  geom <- get_prop (feature f) "geometry" ;;
  if negb (to_boolean geom) then Ok false
  else
    type <- get_prop geom "type" ;;
    coordinates <- get_prop geom "coordinates" ;;
    if is_str type "Point" then
      c <- toPixel coordinates ;;
      let r := (num_or (PointStyle.radius (mpoint styles)) (num 4) + num 4)%js in
      Ok (Math_hypot (XY.x c - x) (XY.y c - y) <=? r)%js
    else if is_str type "Polygon" || is_str type "MultiPolygon" then
      polys <- (if is_str type "Polygon" then Ok [coordinates]
                else iterate coordinates) ;;
      for_first hitPolygon polys
    else if is_str type "LineString" || is_str type "MultiLineString" then
      lines <- (if is_str type "LineString" then Ok [coordinates]
                else iterate coordinates) ;;
      let tolerance := (num_or (LineStyle.lineWidth (mline styles)) (num 2) + num 6)%js in
      for_first (hitLine tolerance) lines
    else Ok false.

(** [for (let i = features.length - 1; i >= 0; i--)], entered with
    [n = features.length]: the next index tested is [n - 1]. *)
Fixpoint hitLoop (features : list ifeature) (n : nat) : result (option ifeature) :=
  match n with
  | O => Ok None
  | S i =>
      match nth_error features i with
      | None => Throw TypeError
      | Some f =>
          hit <- hitFeature f ;;
          if hit then Ok (Some f) else hitLoop features i
      end
  end.

End HitTester.

(** [hitTest]; [None] is its [null]. *)
Definition hitTest (styles : MergedStyles) (cv : option canvas) (st : state)
    (x y : jsnum) : result (option ifeature) :=
  match cv with
  | None => Ok None
  | Some c =>
      hitLoop styles (vp st) (clientWidth c) (clientHeight c) x y
              (features st) (List.length (features st))
  end.

(* ================================================================== *)
(** * Pointer interaction *)
(* ================================================================== *)

(** [a !== b].  Two arrays or two objects are compared by identity, which
    the values of the embedding do not carry. *)
Definition strict_neq (a b : value) : result bool :=
  match a, b with
  | VUndef, VUndef | VNull, VNull => Ok false
  | VBool p, VBool q => Ok (negb (Bool.eqb p q))
  | VNum m, VNum n => Ok (negb (m =? n)%js)
  | VStr s, VStr t => Ok (negb (String.eqb s t))
  | VArr _, VArr _ | VObj _, VObj _ => Throw NotModelled
  | _, _ => Ok true
  end.

(** What the handlers read of a mouse event and of
    [canvas.getBoundingClientRect()]. *)
Record mouse : Type := mkMouse { clientX : jsnum; clientY : jsnum }.
Record rect : Type := mkRect { left : jsnum; top : jsnum }.

(** The calls made on the callbacks of the component. *)
Inductive notice : Type :=
| featureHover (feature : value) (id : value)
| featureClick (feature : value) (id : value).

Section Pointer.

Variable styles : MergedStyles.
Variable cv : canvas.
Variable box : rect.
Variable st : state.
(** Whether [onFeatureHover] and [onFeatureClick] are given. *)
Variables hasHover hasClick : bool.

(** [onMove], on the variable [lastHoverId] of the effect: the new value
    of the variable and the callbacks called. *)
Definition onMove (ev : mouse) (lastHoverId : value) : result (value * list notice) :=
  let x := (clientX ev - left box)%js in
  let y := (clientY ev - top box)%js in
  hit <- hitTest styles (Some cv) st x y ;;
  let hitId := match hit with Some f => id f | None => VNull end in
  changed <- strict_neq hitId lastHoverId ;;
  if changed then
    Ok (hitId,
        if hasHover
        then [featureHover (match hit with Some f => feature f | None => VNull end) hitId]
        else [])
  else Ok (lastHoverId, []).

(** [onClick]: the callbacks called. *)
Definition onClick (ev : mouse) : result (list notice) :=
  let x := (clientX ev - left box)%js in
  let y := (clientY ev - top box)%js in
  hit <- hitTest styles (Some cv) st x y ;;
  match hit with
  | Some f => Ok (if hasClick then [featureClick (feature f) (id f)] else [])
  | None => Ok []
  end.

End Pointer.

(* ================================================================== *)
(** * Vocabulary of the properties *)
(* ================================================================== *)

(** Nothing below is part of the program: these are the notions and the
    concrete inputs the properties are stated with. *)

(** [v] carries the given [type] tag. *)
Definition has_type (v : value) (lit : string) : bool :=
  match get_prop v "type" with
  | Ok t => is_str t lit
  | Throw _ => false
  end.

(** [v] is a bare geometry object: it has a [type] and [coordinates]. *)
Definition is_bare_geometry (v : value) : bool :=
  match get_prop v "type", get_prop v "coordinates" with
  | Ok t, Ok c => to_boolean t && to_boolean c
  | _, _ => false
  end.

(** [v] is one of the four inputs the extractor knows. *)
Definition recognised (v : value) : bool :=
  has_type v "FeatureCollection" || has_type v "Feature"
  || has_type v "GeometryCollection" || is_bare_geometry v.

(** [{ type: t, coordinates: c }] *)
Definition geometry (t : string) (c : value) : value :=
  VObj [("type", VStr t); ("coordinates", c)]%string.

(** The position [[lon, lat]]. *)
Definition position (lon lat : jsnum) : value := VArr [VNum lon; VNum lat].

(** Scanning a list front to back and returning the first feature the
    per-feature test accepts. *)
Fixpoint first_match (test : ifeature -> result bool) (fs : list ifeature)
  : result (option ifeature) :=
  match fs with
  | [] => Ok None
  | f :: fs' => hit <- test f ;; if hit then Ok (Some f) else first_match test fs'
  end.

(** The bare geometry [{ type: "Point", coordinates: [0, 0] }]. *)
Definition point00 : value := geometry "Point" (position (num 0) (num 0)).

(** The argument of the logarithm of the projector, on an angle in
    radians, and the ordinate computed for a latitude in degrees, as
    functions on the reals. *)
Definition log_argument (phi : R) : R := (sin phi / cos phi + 1 / cos phi)%R.

Definition mercatorY (lat : R) : R :=
  ((1 + - (ln (log_argument (lat * PI / 180)) / PI)) / 2)%R.

(** The feature [{ type: 'Feature', geometry: g, properties: {} }] stored
    under the identifier [i]. *)
Definition stored (i : value) (g : value) : ifeature :=
  {| id := i; feature := synthetic g |}.

(** The canvas pixel of the position [[lon, lat]]. *)
Definition pixel (v : viewport) (cssW cssH lon lat : jsnum) : XY.t :=
  let p := lonLatToMercator lon lat in
  mercatorToCanvas v (XY.x p) (XY.y p) cssW cssH.

(** The radius within which a point marker is hit, and the distance within
    which a line is hit. *)
Definition hitRadius (styles : MergedStyles) : jsnum :=
  (num_or (PointStyle.radius (mpoint styles)) (num 4) + num 4)%js.

Definition lineTolerance (styles : MergedStyles) : jsnum :=
  (num_or (LineStyle.lineWidth (mline styles)) (num 2) + num 6)%js.

(** A canvas of 800 by 600 CSS pixels. *)
Definition canvas800 : canvas := mkCanvas (num 800) (num 600) true.

(** The viewport before any fit. *)
Definition initialViewport : viewport := mkViewport (num 1) (num 0) (num 0).

(** Two Point features at [[0, 0]], stored under the identifiers 0 and 1. *)
Definition twoPoints : state :=
  mkState initialViewport
          [stored (VNum (num 0)) point00; stored (VNum (num 1)) point00]
          None (num 1).

(** A LineString made of the vertex [[0, 0]] twice. *)
Definition line00 : value :=
  geometry "LineString" (VArr [position (num 0) (num 0); position (num 0) (num 0)]).

Definition oneLine : state :=
  mkState initialViewport [stored (VNum (num 0)) line00] None (num 1).

(** ** Well-formed GeoJSON

    Coordinates nested as GeoJSON nests them: a position, or an array of
    coordinates (a line is an array of positions, a polygon an array of
    rings, and so on). *)
Inductive coords : Type :=
| Position (lon lat : jsnum)
| Nested (items : list coords).

Fixpoint encode (c : coords) : value :=
  match c with
  | Position lon lat => position lon lat
  | Nested items => VArr (map encode items)
  end.

(** The positions of a coordinates value, in order. *)
Fixpoint leaves (c : coords) : list (jsnum * jsnum) :=
  match c with
  | Position lon lat => [(lon, lat)]
  | Nested items => flat_map leaves items
  end.

(** Induction on coordinates, with the hypothesis on every item of a
    nested array. *)
Section CoordsInduction.

Variable P : coords -> Prop.
Hypothesis P_position : forall lon lat, P (Position lon lat).
Hypothesis P_nested : forall items, Forall P items -> P (Nested items).

Fixpoint coords_nested_ind (c : coords) : P c :=
  match c with
  | Position lon lat => P_position lon lat
  | Nested items =>
      P_nested
        ((fix all (l : list coords) : Forall P l :=
            match l with
            | [] => Forall_nil P
            | c' :: l' => Forall_cons c' (coords_nested_ind c') (all l')
            end) items)
  end.

End CoordsInduction.

(** The six geometry types that carry coordinates. *)
Inductive kind : Type :=
| Point | MultiPoint | LineString | MultiLineString | Polygon | MultiPolygon.

Definition kind_name (k : kind) : string :=
  match k with
  | Point => "Point"
  | MultiPoint => "MultiPoint"
  | LineString => "LineString"
  | MultiLineString => "MultiLineString"
  | Polygon => "Polygon"
  | MultiPolygon => "MultiPolygon"
  end.

(** A Feature: its geometry, or [None] for [geometry: null]. *)
Definition gfeature : Type := option (kind * coords).

Definition encode_geometry (g : gfeature) : value :=
  match g with
  | None => VNull
  | Some (k, c) => geometry (kind_name k) (encode c)
  end.

Definition encode_feature (g : gfeature) : value := synthetic (encode_geometry g).

Definition featureCollection (fs : list gfeature) : value :=
  VObj [("type", VStr "FeatureCollection");
        ("features", VArr (map encode_feature fs))]%string.

Definition feature_leaves (g : gfeature) : list (jsnum * jsnum) :=
  match g with
  | None => []
  | Some (_, c) => leaves c
  end.

(** The coordinate leaves of a feature list, in the order of the visit. *)
Definition all_leaves (fs : list gfeature) : list (jsnum * jsnum) :=
  flat_map feature_leaves fs.

(** Folding one leaf into the bounds. *)
Definition extend_leaf (b : bounds) (l : jsnum * jsnum) : bounds :=
  extend b (lonLatToMercator (fst l) (snd l)).

Definition finite_point (p : XY.t) : bool :=
  is_finite (XY.x p) && is_finite (XY.y p).

Definition finite_bounds (b : bounds) : bool :=
  is_finite (minX b) && is_finite (minY b)
  && is_finite (maxX b) && is_finite (maxY b).

Definition is_nan (a : jsnum) : bool :=
  match a with NaN => true | _ => false end.

Definition nan_free_point (p : XY.t) : bool :=
  negb (is_nan (XY.x p)) && negb (is_nan (XY.y p)).

Definition nan_free_bounds (b : bounds) : bool :=
  negb (is_nan (minX b)) && negb (is_nan (minY b))
  && negb (is_nan (maxX b)) && negb (is_nan (maxY b)).

(** The leaf [l] projects to finite coordinates, or to coordinates that
    are not [NaN]. *)
Definition projects_finite (l : jsnum * jsnum) : bool :=
  finite_point (lonLatToMercator (fst l) (snd l)).

Definition projects_nan_free (l : jsnum * jsnum) : bool :=
  nan_free_point (lonLatToMercator (fst l) (snd l)).

(** A MultiPoint of [[0, 0]] and [[0, 180]], and a Feature without
    geometry. *)
Definition polarPoints : list gfeature :=
  [Some (MultiPoint, Nested [Position (num 0) (num 0); Position (num 0) (num 180)])].

Definition noGeometry : list gfeature := [None].

(** Bounds one two-millionth wide and high, and the bounds of a single
    point. *)
Definition narrowBounds : bounds :=
  mkBounds (num 0) (num 0) (Fin (1 / 2000000)) (Fin (1 / 2000000)).

Definition pointBounds : bounds := mkBounds (num 0) (num 0) (num 0) (num 0).

(** The longitude and latitude of a coordinate whose entries 0 and 1 are
    numbers. *)
Definition numeric_pair (coord : value) : option (jsnum * jsnum) :=
  match coord with
  | VArr items =>
      match nth 0 items VUndef, nth 1 items VUndef with
      | VNum lon, VNum lat => Some (lon, lat)
      | _, _ => None
      end
  | _ => None
  end.

Definition is_array (v : value) : bool :=
  match v with VArr _ => true | _ => false end.

(** The pixels of the coordinates of a list that are pairs of numbers, in
    order. *)
Definition pixels (v : viewport) (ctxW ctxH : jsnum) (cs : list value) : list XY.t :=
  flat_map (fun c => match numeric_pair c with
                     | Some (lon, lat) => [pixel v ctxW ctxH lon lat]
                     | None => []
                     end) cs.

(** A path through the given pixels: [moveTo] the first unless the path is
    started, [lineTo] the others. *)
Fixpoint path (started : bool) (ps : list XY.t) : list call :=
  match ps with
  | [] => []
  | p :: ps' =>
      (if started then lineTo (XY.x p) (XY.y p) else moveTo (XY.x p) (XY.y p))
      :: path true ps'
  end.

(** The calls that fill, then stroke, the current path. *)
Definition paint (fillColor strokeColor : option string) (width : option jsnum)
  : list call :=
  match str_set fillColor with
  | Some s => [set_fillStyle s; fill]
  | None => []
  end
  ++ match str_set strokeColor with
     | Some s => [set_lineWidth (num_or width (num 1)); set_strokeStyle s; stroke]
     | None => []
     end.

(** The calls of one point marker. *)
Definition marker (styles : MergedStyles) (c : XY.t) : list call :=
  let t := mpoint styles in
  beginPath
  :: arc (XY.x c) (XY.y c) (num_or (PointStyle.radius t) (num 3))
         (num 0) (Math_PI * num 2)%js
  :: paint (PointStyle.fill t) (PointStyle.stroke t) (PointStyle.lineWidth t).

(** The calls that open the drawing of a line feature. *)
Definition lineHeader (styles : MergedStyles) : list call :=
  [set_lineWidth (num_or (LineStyle.lineWidth (mline styles)) (num 1));
   set_strokeStyle (from_option (str_set (LineStyle.stroke (mline styles))) "#000"%string)]
  ++ match LineStyle.lineDash (mline styles) with
     | Some d => [setLineDash d]
     | None => []
     end
  ++ [beginPath].

(** The Point feature at [[0, 180]]. *)
Definition polarPoint : ifeature :=
  stored (VNum (num 0)) (geometry "Point" (position (num 0) (num 180))).

(** A line through [[0, 0]], a malformed empty coordinate, and
    [[0, 180]]. *)
Definition polarLine : list value :=
  [position (num 0) (num 0); VArr []; position (num 0) (num 180)].

(** ** Further inputs *)

(** [{ type: 'GeometryCollection', geometries: [...] }] *)
Definition geometryCollection (gs : list gfeature) : value :=
  VObj [("type", VStr "GeometryCollection");
        ("geometries", VArr (map encode_geometry gs))]%string.

(** [{ type: 'FeatureCollection', features: vs }] for arbitrary entries. *)
Definition rawCollection (vs : list value) : value :=
  VObj [("type", VStr "FeatureCollection"); ("features", VArr vs)]%string.

(** A truthy value that a [for ... of] loop cannot iterate: [true], a
    number other than [0] and [NaN], or an object. *)
Definition non_iterable (w : value) : bool :=
  match w with
  | VBool b => b
  | VNum n => truthy n
  | VObj _ => true
  | _ => false
  end.

(** The entry [buildInternalFeatures] stores for the feature [f] of
    index [i]. *)
Definition entry (getFeatureId : option (value -> nat -> value)) (f : value) (i : nat)
  : ifeature :=
  {| id := match getFeatureId with
           | Some g => g f i
           | None => VNum (of_nat i)
           end;
     feature := f |}.

(** The closed ring of the axis-aligned rectangle from [(x0, y0)] to
    [(x1, y1)], in canvas pixels. *)
Definition rectangle (x0 y0 x1 y1 : R) : list (jsnum * jsnum) :=
  [(Fin x0, Fin y0); (Fin x1, Fin y0); (Fin x1, Fin y1); (Fin x0, Fin y1);
   (Fin x0, Fin y0)].

(** The projected point [p] lies within the bounds [b]. *)
Definition inside (b : bounds) (p : XY.t) : bool :=
  (minX b <=? XY.x p)%js && (XY.x p <=? maxX b)%js
  && (minY b <=? XY.y p)%js && (XY.y p <=? maxY b)%js.

(** The projection of a leaf. *)
Definition projected (l : jsnum * jsnum) : XY.t := lonLatToMercator (fst l) (snd l).

(** The calls [render] issues before the features: the transform, then
    the background. *)
Definition backdrop (background : option string) (cv : canvas) (st : state) : list call :=
  setTransform (or_else (dpr st) (num 1)) (num 0) (num 0)
               (or_else (dpr st) (num 1)) (num 0) (num 0)
  :: match str_set background with
     | Some bg => [set_fillStyle bg;
                   fillRect (num 0) (num 0) (clientWidth cv) (clientHeight cv)]
     | None => [clearRect (num 0) (num 0) (clientWidth cv) (clientHeight cv)]
     end.

(** A feature the hit-test passes over: its geometry is absent, or of a
    type other than the five the hit-test handles (a MultiPoint, a
    GeometryCollection, an unknown type). *)
Definition hit_blind (f : ifeature) : bool :=
  match get_prop (feature f) "geometry" with
  | Ok geom =>
      if to_boolean geom then
        match get_prop geom "type" with
        | Ok t =>
            negb (is_str t "Point" || is_str t "Polygon" || is_str t "MultiPolygon"
                  || is_str t "LineString" || is_str t "MultiLineString")
        | Throw _ => false
        end
      else true
  | Throw _ => false
  end.

Definition with_features (st : state) (fs : list ifeature) : state :=
  mkState (vp st) fs (featureBounds st) (dpr st).

(** The line through the given positions, and its consecutive pairs. *)
Definition lineCoordinates (ps : list (jsnum * jsnum)) : value :=
  VArr (map (fun l => position (fst l) (snd l)) ps).

Definition segments {A : Type} (l : list A) : list (A * A) := combine l (tl l).

(** The segment from [a] to [b] passes within [tolerance] of [(x, y)]. *)
Definition near_segment (x y tolerance : jsnum) (s : XY.t * XY.t) : bool :=
  (distanceToSegment x y (XY.x (fst s)) (XY.y (fst s)) (XY.x (snd s)) (XY.y (snd s))
   <=? tolerance)%js.

(** A value equal to itself under [===]: anything but [NaN], an array or
    an object. *)
Definition self_equal (a : value) : bool :=
  match a with
  | VNum n => negb (is_nan n)
  | VArr _ | VObj _ => false
  | _ => true
  end.

(** The pixels of the positions of a ring, as the pairs [pointInPolygon]
    takes. *)
Definition ringPixels (v : viewport) (cssW cssH : jsnum) (ps : list (jsnum * jsnum))
  : list (jsnum * jsnum) :=
  map (fun l => (XY.x (pixel v cssW cssH (fst l) (snd l)),
                 XY.y (pixel v cssW cssH (fst l) (snd l)))) ps.

(** A polygon: its outer ring, then whatever follows it (the holes). *)
Definition polygonCoordinates (outer : list (jsnum * jsnum)) (holes : list value) : value :=
  VArr (lineCoordinates outer :: holes).

(* ================================================================== *)
(** * Facts about numbers *)
(* ================================================================== *)

Section NumberFacts.

Local Open Scope R_scope.

Lemma Rcmp_spec (a b : R) : CompareSpec (a = b) (a < b) (b < a) (Rcmp a b).
Proof.
  unfold Rcmp. destruct (total_order_T a b) as [[H | H] | H]; constructor; assumption.
Qed.

Lemma Rcmp_lt (a b : R) : a < b -> Rcmp a b = Lt.
Proof. intros H. destruct (Rcmp_spec a b); [lra | reflexivity | lra]. Qed.

Lemma Rcmp_gt (a b : R) : b < a -> Rcmp a b = Gt.
Proof. intros H. destruct (Rcmp_spec a b); [lra | lra | reflexivity]. Qed.

Lemma Rcmp_eq (a b : R) : a = b -> Rcmp a b = Eq.
Proof. intros H. destruct (Rcmp_spec a b); [reflexivity | lra | lra]. Qed.

End NumberFacts.

(** Decide the comparisons of the goal whose outcome linear arithmetic
    settles. *)
Ltac rcmp :=
  repeat match goal with
  | |- context [Rcmp ?a ?b] =>
      first [ rewrite (@Rcmp_lt a b) by lra
            | rewrite (@Rcmp_gt a b) by lra
            | rewrite (@Rcmp_eq a b) by lra ]
  end.

(* ================================================================== *)
(** * The extractor *)
(* ================================================================== *)

(** C7.  Extracting the bare geometry [{type:"Point", coordinates:[0,0]}]
    yields exactly one feature, the synthetic Feature that wraps the
    geometry with empty properties; and [buildInternalFeatures], given no
    identifier function, stores it with the identifier 0, its index. *)
Theorem extract_bare_point :
  extractFeatures point00
  = Ok [VObj [("type", VStr "Feature"); ("geometry", point00);
              ("properties", VObj [])]%string]
  /\ forall st : state,
       features (fst (buildInternalFeatures None point00 st))
       = [ {| id := VNum (num 0); feature := synthetic point00 |} ].
Proof.
  split; [reflexivity |].
  intros st. unfold buildInternalFeatures.
  change (extractFeatures point00) with (Ok [synthetic point00]).
  destruct (getBoundsOfGeojson point00); reflexivity.
Qed.

(** C8, as the code has it.  On [null], and on every value that is none of
    a FeatureCollection, a Feature, a GeometryCollection or a bare geometry
    object, the extractor returns the empty sequence: it does not throw.
    A FeatureCollection whose [features], or a GeometryCollection whose
    [geometries], is absent or falsy is taken to have no feature: the
    loops run on [geojson.features || []] and [geojson.geometries || []]. *)
Theorem extract_unrecognised (v : value) :
  (v = VNull \/ recognised v = false -> extractFeatures v = Ok [])
  /\ (forall props : list (string * value),
        v = VObj props ->
        (lookup "type" props = VStr "FeatureCollection"
         /\ to_boolean (lookup "features" props) = false)
        \/ (lookup "type" props = VStr "GeometryCollection"
            /\ to_boolean (lookup "geometries" props) = false) ->
        extractFeatures v = Ok []).
Proof.
  split.
  - intros [-> | H]; [reflexivity |].
    unfold recognised, has_type, is_bare_geometry in H.
    apply orb_false_iff in H as [H Hbare].
    apply orb_false_iff in H as [H Hgc].
    apply orb_false_iff in H as [Hfc Hf].
    unfold extractFeatures.
    destruct (to_boolean v) eqn:Hv; [| reflexivity]. simpl negb. cbv iota.
    destruct (get_prop v "type") as [t | e] eqn:Ht.
    + simpl bind. rewrite Hfc, Hf, Hgc.
      destruct (get_prop v "coordinates") as [c | e] eqn:Hc.
      * simpl bind. rewrite Hbare. reflexivity.
      * destruct v; simpl in Hc; discriminate.
    + destruct v; simpl in Ht, Hv; discriminate.
  - intros props -> [[Ht Hf] | [Ht Hg]]; unfold extractFeatures; simpl; rewrite Ht; simpl.
    + unfold vor. rewrite Hf. reflexivity.
    + unfold vor. rewrite Hg. reflexivity.
Qed.

Lemma extract_unrecognised_witness :
  extractFeatures (VStr "not geojson") = Ok []
  /\ extractFeatures (VObj [("type", VStr "Topology")]%string) = Ok []
  /\ extractFeatures VNull = Ok []
  /\ extractFeatures (VObj [("type", VStr "FeatureCollection")]%string) = Ok []
  /\ extractFeatures
       (VObj [("type", VStr "GeometryCollection"); ("geometries", VNull)]%string) = Ok [].
Proof.
  split; [| split; [| split; [| split]]].
  - apply extract_unrecognised. right. reflexivity.
  - apply extract_unrecognised. right. reflexivity.
  - apply extract_unrecognised. left. reflexivity.
  - eapply extract_unrecognised; [reflexivity |]. left. split; reflexivity.
  - eapply extract_unrecognised; [reflexivity |]. right. split; reflexivity.
Defined.

(** The claim C8 fails on a FeatureCollection whose [features] is the
    number 5: the value is truthy, so the fallback [|| []] does not apply,
    and it cannot be iterated, so the loop raises a [TypeError] that
    nothing catches. *)
Lemma extract_malformed_raises :
  extractFeatures
    (VObj [("type", VStr "FeatureCollection"); ("features", VNum (num 5))]%string)
  = Throw TypeError.
Proof.
  unfold extractFeatures, vor, num. simpl. unfold truthy. rcmp. reflexivity.
Qed.

(* ================================================================== *)
(** * The projector *)
(* ================================================================== *)

Section ProjectorFacts.

Local Open Scope R_scope.

Lemma sin_above_minus_1 (phi : R) : - (PI / 2) < phi < PI / 2 -> -1 < sin phi.
Proof.
  intros [Hlo Hhi].
  replace (-1) with (sin (- (PI / 2))) by (rewrite sin_neg, sin_PI2; reflexivity).
  apply sin_increasing_1; lra.
Qed.

Lemma log_argument_pos (phi : R) : - (PI / 2) < phi < PI / 2 -> 0 < log_argument phi.
Proof.
  intros H. unfold log_argument.
  pose proof (sin_above_minus_1 H) as Hs.
  assert (Hc : 0 < cos phi) by (apply cos_gt_0; lra).
  replace (sin phi / cos phi + 1 / cos phi) with ((sin phi + 1) / cos phi)
    by (field; lra).
  apply Rdiv_lt_0_compat; lra.
Qed.

Lemma radians_in_range (lat : R) :
  -90 < lat < 90 -> - (PI / 2) < lat * PI / 180 < PI / 2.
Proof. intros H. pose proof PI_RGT_0. split; nra. Qed.

Lemma project_x (lon : R) (lat : jsnum) :
  XY.x (lonLatToMercator (Fin lon) lat) = Fin ((lon + 180) / 360).
Proof. simpl. rcmp. reflexivity. Qed.

Lemma project_y (lon : jsnum) (lat : R) :
  -90 < lat < 90 -> XY.y (lonLatToMercator lon (Fin lat)) = Fin (mercatorY lat).
Proof.
  intros H. apply radians_in_range in H.
  pose proof (log_argument_pos H) as Hg.
  assert (Hc : 0 < cos (lat * PI / 180)) by (apply cos_gt_0; lra).
  pose proof PI_RGT_0 as Hpi.
  unfold lonLatToMercator, mercatorY, Math_PI, num. simpl. rcmp. simpl. rcmp. simpl.
  fold (log_argument (lat * PI / 180)). repeat (progress (simpl; rcmp)). reflexivity.
Qed.

(** The projection of [[0, 0]] is the centre of the unit square. *)
Lemma project_origin :
  lonLatToMercator (num 0) (num 0) = XY.mk (Fin (1 / 2)) (Fin (1 / 2)).
Proof.
  assert (Hext : forall p q, XY.x p = XY.x q -> XY.y p = XY.y q -> p = q)
    by (intros [] []; simpl; congruence).
  apply Hext; change (num 0) with (Fin 0).
  - rewrite project_x. simpl. f_equal. lra.
  - rewrite project_y by lra. simpl. f_equal.
    unfold mercatorY, log_argument. replace (0 * PI / 180) with 0 by lra.
    rewrite sin_0, cos_0. replace (0 / 1 + 1 / 1) with 1 by lra.
    rewrite ln_1. lra.
Qed.

(** A latitude of 180 degrees projects to [NaN]: the logarithm is taken
    of [-1]. *)
Lemma project_lat_180 (lon : jsnum) : XY.y (lonLatToMercator lon (num 180)) = NaN.
Proof.
  pose proof PI_RGT_0 as Hpi.
  unfold lonLatToMercator, Math_PI, num. simpl. rcmp. simpl.
  replace (180 * PI / 180) with PI by lra.
  rewrite sin_PI, cos_PI. rcmp. simpl. rcmp. simpl.
  replace (0 / -1 + 1 / -1) with (-1) by lra. repeat (progress (simpl; rcmp)). reflexivity.
Qed.

End ProjectorFacts.

(* ================================================================== *)
(** * Minima, maxima and sums of squares *)
(* ================================================================== *)

Section FiniteFacts.

Local Open Scope R_scope.

Lemma sum_squares_pos (a b : R) : a <> 0 \/ b <> 0 -> 0 < a * a + b * b.
Proof.
  intros [H | H].
  - pose proof (Rsqr_pos_lt a H) as Ha. pose proof (Rle_0_sqr b) as Hb.
    unfold Rsqr in *. lra.
  - pose proof (Rsqr_pos_lt b H) as Hb. pose proof (Rle_0_sqr a) as Ha.
    unfold Rsqr in *. lra.
Qed.

Lemma Math_min_fin (a b : R) : Math_min (Fin a) (Fin b) = Fin (Rmin a b).
Proof.
  unfold Math_min, Rmin. simpl.
  destruct (Rcmp_spec a b); destruct (Rle_dec a b); try reflexivity; f_equal; lra.
Qed.

Lemma Math_max_fin (a b : R) : Math_max (Fin a) (Fin b) = Fin (Rmax a b).
Proof.
  unfold Math_max, Rmax. simpl.
  destruct (Rcmp_spec a b); destruct (Rle_dec a b); try reflexivity; f_equal; lra.
Qed.

End FiniteFacts.

(* ================================================================== *)
(** * The hit-tester *)
(* ================================================================== *)

Arguments lonLatToMercator : simpl never.
Arguments mercatorToCanvas : simpl never.
Arguments distanceToSegment : simpl never.

Section HitFacts.

Variable styles : MergedStyles.
Variable v : viewport.
Variables cssW cssH : jsnum.
Variables x y : jsnum.

Lemma firstn_snoc {A : Type} (l : list A) (i : nat) (a : A) :
  nth_error l i = Some a -> firstn (S i) l = firstn i l ++ [a].
Proof.
  revert i. induction l as [| b l IH]; intros [| i] H; simpl in *; try discriminate.
  - congruence.
  - f_equal. apply IH. exact H.
Qed.

(** The loop by decreasing index is a front-to-back scan of the reversed
    list. *)
Lemma hitLoop_prefix (fs : list ifeature) (n : nat) :
  (n <= List.length fs)%nat ->
  hitLoop styles v cssW cssH x y fs n = first_match (hitFeature styles v cssW cssH x y) (rev (firstn n fs)).
Proof.
  induction n as [| i IH]; intros Hn; [reflexivity |].
  destruct (nth_error fs i) as [f |] eqn:Hf.
  - rewrite (firstn_snoc _ _ Hf), rev_unit. simpl. rewrite Hf.
    destruct ((hitFeature styles v cssW cssH x y) f) as [[|] | e]; simpl; try reflexivity.
    apply IH. lia.
  - apply nth_error_None in Hf. lia.
Qed.

Lemma hitLoop_reverse (fs : list ifeature) :
  hitLoop styles v cssW cssH x y fs (List.length fs) = first_match (hitFeature styles v cssW cssH x y) (rev fs).
Proof. rewrite hitLoop_prefix by lia. rewrite firstn_all. reflexivity. Qed.

Lemma first_match_none (fs : list ifeature) :
  (forall f, In f fs -> (hitFeature styles v cssW cssH x y) f = Ok false) -> first_match (hitFeature styles v cssW cssH x y) fs = Ok None.
Proof.
  induction fs as [| f fs IH]; intros H; [reflexivity |].
  simpl. rewrite (H f) by (left; reflexivity). simpl.
  apply IH. intros g Hg. apply H. right. exact Hg.
Qed.

(** The (hitFeature styles v cssW cssH x y) of a Point feature. *)
Lemma hitFeature_point (f : ifeature) (lon lat : jsnum) :
  get_prop (feature f) "geometry" = Ok (geometry "Point" (position lon lat)) ->
  (hitFeature styles v cssW cssH x y) f = Ok (Math_hypot (XY.x (pixel v cssW cssH lon lat) - x)
                          (XY.y (pixel v cssW cssH lon lat) - y)
               <=? hitRadius styles)%js.
Proof. intros H. unfold hitFeature. rewrite H. reflexivity. Qed.

Lemma sub_self (a : jsnum) : is_finite a = true -> (a - a)%js = Fin 0.
Proof.
  destruct a; try discriminate. intros _. unfold sub. simpl. f_equal. lra.
Qed.

Lemma hypot_zero : Math_hypot (Fin 0) (Fin 0) = Fin 0.
Proof.
  simpl. f_equal. replace (0 * 0 + 0 * 0)%R with 0%R by lra. apply sqrt_0.
Qed.

(** The (hitFeature styles v cssW cssH x y) of a LineString made of one vertex repeated. *)
Lemma hitFeature_repeated_vertex (f : ifeature) (lon lat : jsnum) :
  get_prop (feature f) "geometry"
  = Ok (geometry "LineString" (VArr [position lon lat; position lon lat])) ->
  let a := pixel v cssW cssH lon lat in
  (hitFeature styles v cssW cssH x y) f = Ok (distanceToSegment x y (XY.x a) (XY.y a) (XY.x a) (XY.y a)
               <=? lineTolerance styles)%js.
Proof.
  intros H a. unfold hitFeature. rewrite H. simpl.
  unfold hitLine. simpl. unfold toPixel. simpl.
  fold (pixel v cssW cssH lon lat). fold a. unfold lineTolerance.
  destruct (_ <=? _)%js; reflexivity.
Qed.

Lemma repeated_vertex_no_division (a b : jsnum) :
  is_finite a = true -> is_finite b = true ->
  distanceToSegment_divs x y a b a b = (Math_hypot (x - a) (y - b), []).
Proof.
  intros Ha Hb. unfold distanceToSegment_divs.
  rewrite (sub_self a Ha), (sub_self b Hb).
  unfold eqb, num. simpl. rcmp. reflexivity.
Qed.

End HitFacts.

Lemma divisors_nonzero (px py x1 y1 x2 y2 : R) (d : jsnum) :
  In d (snd (distanceToSegment_divs (Fin px) (Fin py) (Fin x1) (Fin y1)
                                    (Fin x2) (Fin y2))) ->
  (d =? num 0)%js = false.
Proof.
  unfold distanceToSegment_divs.
  change (Fin x2 - Fin x1)%js with (Fin (x2 - x1)).
  change (Fin y2 - Fin y1)%js with (Fin (y2 - y1)).
  unfold eqb at 1 2. unfold num. simpl cmp.
  destruct (Rcmp_spec (x2 - x1) 0) as [Hx | Hx | Hx];
    [destruct (Rcmp_spec (y2 - y1) 0) as [Hy | Hy | Hy] | |];
    simpl; try tauto.
  all: intros [<- | []].
  all: assert (HL : (0 < (x2 - x1) * (x2 - x1) + (y2 - y1) * (y2 - y1))%R)
         by (apply sum_squares_pos; first [left; lra | right; lra]).
  all: unfold eqb; simpl; rewrite (Rcmp_gt HL); reflexivity.
Qed.

(** C5.  [hitTest] tests the features in reverse order and returns the first
    one that matches.  In particular, with two Point features at one
    location last in the list, hit-testing at the pixel of that location
    returns the later one; and when no feature matches the result is none. *)
Theorem hitTest_reverse_first (styles : MergedStyles) (cv : canvas) (st : state)
    (x y : jsnum) :
  let test := hitFeature styles (vp st) (clientWidth cv) (clientHeight cv) x y in
  hitTest styles (Some cv) st x y = first_match test (rev (features st))
  /\ (forall (pre : list ifeature) (f1 f2 : ifeature) (lon lat : jsnum),
        features st = pre ++ [f1; f2] ->
        get_prop (feature f1) "geometry" = Ok (geometry "Point" (position lon lat)) ->
        get_prop (feature f2) "geometry" = Ok (geometry "Point" (position lon lat)) ->
        pixel (vp st) (clientWidth cv) (clientHeight cv) lon lat = XY.mk x y ->
        is_finite x = true -> is_finite y = true ->
        (num 0 <=? hitRadius styles)%js = true ->
        hitTest styles (Some cv) st x y = Ok (Some f2))
  /\ ((forall f, In f (features st) -> test f = Ok false) ->
      hitTest styles (Some cv) st x y = Ok None).
Proof.
  intros test.
  assert (Hrev : hitTest styles (Some cv) st x y = first_match test (rev (features st)))
    by apply hitLoop_reverse.
  split; [exact Hrev | split].
  - intros pre f1 f2 lon lat Hfs _ Hf2 Hpx Hx Hy Hr.
    rewrite Hrev, Hfs, rev_app_distr. simpl.
    unfold test.
    rewrite (@hitFeature_point styles (vp st) (clientWidth cv) (clientHeight cv)
               x y f2 lon lat Hf2), Hpx. simpl XY.x. simpl XY.y.
    rewrite (sub_self x Hx), (sub_self y Hy), hypot_zero.
    change (Fin 0) with (num 0). rewrite Hr. reflexivity.
  - intros Hnone. rewrite Hrev. apply first_match_none.
    intros f Hf. apply Hnone. apply in_rev. exact Hf.
Qed.

Lemma pixel_origin :
  pixel initialViewport (num 800) (num 600) (num 0) (num 0)
  = XY.mk (Fin 400) (Fin 300).
Proof.
  unfold pixel. rewrite project_origin. unfold mercatorToCanvas. simpl.
  f_equal; f_equal; lra.
Qed.

(** The pixel of [[0, 180]]: on an 800 by 600 canvas before any fit, the
    abscissa is 400 and the ordinate [NaN]. *)
Lemma pixel_lat_180 :
  pixel initialViewport (num 800) (num 600) (num 0) (num 180) = XY.mk (Fin 400) NaN.
Proof.
  unfold pixel, mercatorToCanvas.
  rewrite project_lat_180. change (num 0) with (Fin 0) at 1. rewrite project_x.
  simpl. f_equal. f_equal. lra.
Qed.

Lemma hitTest_reverse_first_witness :
  hitTest defaultStyles (Some canvas800) twoPoints (Fin 400) (Fin 300)
  = Ok (Some (stored (VNum (num 1)) point00)).
Proof.
  destruct (hitTest_reverse_first defaultStyles canvas800 twoPoints (Fin 400) (Fin 300))
    as [_ [H _]].
  apply (H [] (stored (VNum (num 0)) point00) (stored (VNum (num 1)) point00)
           (num 0) (num 0)); try reflexivity.
  - exact pixel_origin.
  - unfold hitRadius, leb, num_or, or_else, truthy, num. simpl.
    repeat (progress (simpl; rcmp)). reflexivity.
Defined.



(* ================================================================== *)
(** * The distance to a segment *)
(* ================================================================== *)

Section ClampFacts.

(** [Math.hypot] never yields a negative number. *)
Lemma hypot_not_negative (a b : jsnum) :
  is_nan (Math_hypot a b) = true \/ (num 0 <=? Math_hypot a b)%js = true.
Proof.
  destruct a as [| | | x], b as [| | | y]; simpl; auto.
  right. unfold leb, num. simpl.
  destruct (Rcmp_spec 0 (sqrt (x * x + y * y))) as [H | H | H]; try reflexivity.
  pose proof (sqrt_pos (x * x + y * y)). lra.
Qed.

(** [Math.max(0, Math.min(1, t))] is [NaN] or lies between 0 and 1. *)
Lemma clamp_range (t : jsnum) :
  let tt := Math_max (num 0) (Math_min (num 1) t) in
  is_nan tt = true \/ (num 0 <=? tt)%js && (tt <=? num 1)%js = true.
Proof.
  destruct t as [| | | r]; simpl.
  - left. reflexivity.
  - right. unfold Math_max, Math_min, leb, num. simpl. rcmp. simpl. rcmp. reflexivity.
  - right. unfold Math_max, Math_min, leb, num. simpl. rcmp. reflexivity.
  - right. unfold num. rewrite Math_min_fin, Math_max_fin.
    assert (H : (0 <= Rmax 0 (Rmin 1 r) <= 1)%R).
    { unfold Rmax, Rmin. destruct (Rle_dec 1 r); destruct (Rle_dec 0 _); lra. }
    unfold leb. simpl.
    destruct (Rcmp_spec 0 (Rmax 0 (Rmin 1 r)));
      destruct (Rcmp_spec (Rmax 0 (Rmin 1 r)) 1); try reflexivity; lra.
Qed.

End ClampFacts.

(** C10, as the code has it.  [distanceToSegment] returns a value of
    [Math.hypot], which is [NaN] or not negative.  When the two deltas
    [x2 - x1] and [y2 - y1] are both 0, as they are when [a = b] has finite
    coordinates, it is [Math.hypot(px - x1, py - y1)], the distance from
    [p] to [a].  Otherwise it is the [Math.hypot] of the offsets from [p]
    to the point [a + tt * (b - a)], where [tt] is the parameter
    [Math.max(0, Math.min(1, t))], which is [NaN] or lies between 0 and
    1. *)
Theorem distanceToSegment_clamped (px py x1 y1 x2 y2 : jsnum) :
  let d := distanceToSegment px py x1 y1 x2 y2 in
  let dx := (x2 - x1)%js in
  let dy := (y2 - y1)%js in
  (is_nan d = true \/ (num 0 <=? d)%js = true)
  /\ ((dx =? num 0)%js && (dy =? num 0)%js = true ->
      d = Math_hypot (px - x1) (py - y1))
  /\ (is_finite x1 = true -> is_finite y1 = true -> x2 = x1 -> y2 = y1 ->
      d = Math_hypot (px - x1) (py - y1))
  /\ ((dx =? num 0)%js && (dy =? num 0)%js = false ->
      exists tt : jsnum,
        tt = Math_max (num 0)
               (Math_min (num 1)
                  (((px - x1) * dx + (py - y1) * dy) / (dx * dx + dy * dy))%js)
        /\ (is_nan tt = true \/ (num 0 <=? tt)%js && (tt <=? num 1)%js = true)
        /\ d = Math_hypot (px - (x1 + tt * dx)) (py - (y1 + tt * dy))%js).
Proof.
  intros d dx dy.
  assert (Hzero : (dx =? num 0)%js && (dy =? num 0)%js = true ->
                  d = Math_hypot (px - x1) (py - y1)).
  { intros H. subst d. unfold distanceToSegment, distanceToSegment_divs.
    fold dx dy. rewrite H. reflexivity. }
  split; [| split; [exact Hzero | split]].
  - subst d. unfold distanceToSegment, distanceToSegment_divs.
    destruct (_ && _); cbn [fst]; apply hypot_not_negative.
  - intros Hx Hy -> ->. apply Hzero. subst dx dy.
    rewrite (sub_self x1 Hx), (sub_self y1 Hy).
    unfold eqb, num. simpl. rcmp. reflexivity.
  - intros H. eexists. split; [reflexivity | split; [apply clamp_range |]].
    subst d. unfold distanceToSegment, distanceToSegment_divs.
    fold dx dy. rewrite H. reflexivity.
Qed.

Lemma distanceToSegment_clamped_witness :
  distanceToSegment (Fin 0) (Fin 3) (Fin 1) (Fin 0) (Fin 1) (Fin 0)
  = Math_hypot (Fin 0 - Fin 1) (Fin 3 - Fin 0).
Proof.
  destruct (distanceToSegment_clamped (Fin 0) (Fin 3) (Fin 1) (Fin 0) (Fin 1) (Fin 0))
    as (_ & _ & H & _).
  apply H; reflexivity.
Defined.

(** The claim C10 fails on a segment that ends at a pixel with a [NaN]
    ordinate, such as the pixel of [[0, 180]]: queried at its first
    endpoint, the pixel of [[0, 0]], [distanceToSegment] returns [NaN],
    which is neither non-negative nor at most the distance 0 from the query
    to that endpoint. *)
Lemma distance_to_polar_segment :
  let a := pixel initialViewport (num 800) (num 600) (num 0) (num 0) in
  let b := pixel initialViewport (num 800) (num 600) (num 0) (num 180) in
  let d := distanceToSegment (XY.x a) (XY.y a) (XY.x a) (XY.y a) (XY.x b) (XY.y b) in
  d = NaN
  /\ (num 0 <=? d)%js = false
  /\ Math_hypot (XY.x a - XY.x a) (XY.y a - XY.y a) = Fin 0
  /\ (d <=? Fin 0)%js = false.
Proof.
  cbv zeta. rewrite pixel_origin, pixel_lat_180. cbn [XY.x XY.y].
  assert (Hd : distanceToSegment (Fin 400) (Fin 300) (Fin 400) (Fin 300) (Fin 400) NaN
               = NaN).
  { unfold distanceToSegment, distanceToSegment_divs.
    rewrite (@sub_self (Fin 400) eq_refl).
    unfold eqb, num. simpl. rcmp. reflexivity. }
  rewrite Hd. repeat split.
  rewrite !sub_self by reflexivity. apply hypot_zero.
Qed.

(* ================================================================== *)
(** * The bounds calculator *)
(* ================================================================== *)

Section BoundsFacts.

Lemma encode_is_array (c : coords) : exists items, encode c = VArr items.
Proof.
  destruct c as [lon lat | items];
    [exists [VNum lon; VNum lat] | exists (map encode items)]; reflexivity.
Qed.

(** An array whose first entry is not a number is iterated. *)
Lemma visitCoords_array (items : list value) (b : bounds) :
  (forall n, nth 0 items VUndef <> VNum n) ->
  visitCoords (VArr items) b = for_of visitCoords items b.
Proof.
  intros Hfirst.
  assert (Hloop : forall cs b0,
            (fix each (cs : list value) (b : bounds) {struct cs} : result bounds :=
               match cs with
               | [] => Ok b
               | c :: cs' => b' <- visitCoords c b ;; each cs' b'
               end) cs b0 = for_of visitCoords cs b0).
  { induction cs as [| c cs IH]; intros b0; [reflexivity |].
    simpl. destruct (visitCoords c b0); simpl; [apply IH | reflexivity]. }
  rewrite <- Hloop. simpl.
  destruct (nth 0 items VUndef) eqn:E0; try reflexivity.
  exfalso. apply (Hfirst n). reflexivity.
Qed.

(** Visiting well-formed coordinates folds every leaf, in order. *)
Lemma visitCoords_encode (c : coords) :
  forall b, visitCoords (encode c) b = Ok (fold_left extend_leaf (leaves c) b).
Proof.
  induction c as [lon lat | items IH] using coords_nested_ind; intros b.
  - reflexivity.
  - simpl encode. rewrite visitCoords_array.
    + simpl leaves. revert b.
      induction IH as [| c items Hc _ IHitems]; intros b; [reflexivity |].
      simpl. rewrite Hc. simpl. rewrite IHitems, fold_left_app. reflexivity.
    + intros n. destruct items as [| c items']; simpl; [discriminate |].
      destruct (encode_is_array c) as [l ->]. discriminate.
Qed.

Lemma visitFeature_encode (g : gfeature) (b : bounds) :
  visitFeature (encode_feature g) b = Ok (fold_left extend_leaf (feature_leaves g) b).
Proof.
  destruct g as [[k c] |]; [| reflexivity].
  unfold visitFeature, encode_feature, encode_geometry.
  destruct k; simpl; apply visitCoords_encode.
Qed.

Lemma visitFeatures_encode (fs : list gfeature) :
  forall b, for_of visitFeature (map encode_feature fs) b
            = Ok (fold_left extend_leaf (all_leaves fs) b).
Proof.
  induction fs as [| g fs IH]; intros b; [reflexivity |].
  simpl. rewrite visitFeature_encode. simpl.
  unfold all_leaves in *. simpl. rewrite IH, fold_left_app. reflexivity.
Qed.

(** The bounds of a FeatureCollection: absent without features, else the
    fold of all the leaves from the initial bounds. *)
Lemma getBounds_featureCollection (fs : list gfeature) :
  getBoundsOfGeojson (featureCollection fs)
  = Ok (match fs with
        | [] => None
        | _ => Some (fold_left extend_leaf (all_leaves fs) initialBounds)
        end).
Proof.
  unfold getBoundsOfGeojson.
  change (extractFeatures (featureCollection fs)) with (Ok (map encode_feature fs)).
  simpl bind. rewrite length_map.
  destruct fs as [| g fs]; [reflexivity |].
  simpl Nat.eqb. cbv iota. rewrite visitFeatures_encode. reflexivity.
Qed.

End BoundsFacts.

Section FoldFacts.

Ltac by_cases :=
  repeat (simpl; match goal with
                 | |- context [Rcmp ?u ?v] => destruct (Rcmp_spec u v)
                 end);
  simpl; try reflexivity; try discriminate; exfalso; lra.

Lemma Math_min_nan_r (a : jsnum) : Math_min a NaN = NaN.
Proof. destruct a; reflexivity. Qed.

Lemma Math_max_nan_r (a : jsnum) : Math_max a NaN = NaN.
Proof. destruct a; reflexivity. Qed.

Lemma Math_min_finite (a x : jsnum) :
  a = PInf \/ is_finite a = true -> is_finite x = true ->
  is_finite (Math_min a x) = true.
Proof.
  intros [-> | Ha] Hx; destruct x; try discriminate; [reflexivity |].
  destruct a; try discriminate. rewrite Math_min_fin. reflexivity.
Qed.

Lemma Math_max_finite (a x : jsnum) :
  a = NInf \/ is_finite a = true -> is_finite x = true ->
  is_finite (Math_max a x) = true.
Proof.
  intros [-> | Ha] Hx; destruct x; try discriminate; [reflexivity |].
  destruct a; try discriminate. rewrite Math_max_fin. reflexivity.
Qed.

Lemma Math_min_nan_free (a x : jsnum) :
  is_nan a = false -> is_nan x = false -> is_nan (Math_min a x) = false.
Proof.
  destruct a, x; intros Ha Hx; try discriminate; try reflexivity.
  unfold Math_min. by_cases.
Qed.

Lemma Math_max_nan_free (a x : jsnum) :
  is_nan a = false -> is_nan x = false -> is_nan (Math_max a x) = false.
Proof.
  destruct a, x; intros Ha Hx; try discriminate; try reflexivity.
  unfold Math_max. by_cases.
Qed.

(** Whatever the bounds were, after a point without [NaN] is folded in the
    minimum is at most the maximum. *)
Lemma min_le_max (a c x : jsnum) :
  is_nan a = false -> is_nan c = false -> is_nan x = false ->
  (Math_min a x <=? Math_max c x)%js = true.
Proof.
  destruct a, c, x; intros Ha Hc Hx; try discriminate; try reflexivity;
    unfold Math_min, Math_max, leb; by_cases.
Qed.

Lemma extend_finite (b : bounds) (p : XY.t) :
  b = initialBounds \/ finite_bounds b = true -> finite_point p = true ->
  finite_bounds (extend b p) = true.
Proof.
  unfold finite_bounds, finite_point. intros Hb Hp.
  apply andb_true_iff in Hp as [Hx Hy]. unfold extend. simpl.
  destruct Hb as [-> | Hb].
  - simpl. rewrite !Math_min_finite, !Math_max_finite by auto. reflexivity.
  - apply andb_true_iff in Hb as [Hb H4]. apply andb_true_iff in Hb as [Hb H3].
    apply andb_true_iff in Hb as [H1 H2].
    rewrite !Math_min_finite, !Math_max_finite by auto. reflexivity.
Qed.

Lemma fold_finite (ls : list (jsnum * jsnum)) :
  forall b, b = initialBounds /\ ls <> [] \/ finite_bounds b = true ->
            forallb projects_finite ls = true ->
            finite_bounds (fold_left extend_leaf ls b) = true.
Proof.
  induction ls as [| l ls IH]; intros b Hb Hall.
  - destruct Hb as [[_ Hne] | Hb]; [contradiction | exact Hb].
  - simpl in Hall. apply andb_true_iff in Hall as [Hl Hall].
    simpl. apply IH; [| exact Hall].
    right. apply extend_finite; [tauto | exact Hl].
Qed.

Lemma extend_nan_free (b : bounds) (p : XY.t) :
  nan_free_bounds b = true -> nan_free_point p = true ->
  nan_free_bounds (extend b p) = true.
Proof.
  unfold nan_free_bounds, nan_free_point. intros Hb Hp.
  apply andb_true_iff in Hp as [Hx Hy].
  apply andb_true_iff in Hb as [Hb H4]. apply andb_true_iff in Hb as [Hb H3].
  apply andb_true_iff in Hb as [H1 H2].
  apply negb_true_iff in Hx, Hy, H1, H2, H3, H4.
  unfold extend. simpl.
  rewrite !Math_min_nan_free, !Math_max_nan_free by assumption. reflexivity.
Qed.

Lemma fold_nan_free (ls : list (jsnum * jsnum)) :
  forall b, nan_free_bounds b = true -> forallb projects_nan_free ls = true ->
            nan_free_bounds (fold_left extend_leaf ls b) = true.
Proof.
  induction ls as [| l ls IH]; intros b Hb Hall; [exact Hb |].
  simpl in Hall. apply andb_true_iff in Hall as [Hl Hall].
  simpl. apply IH; [| exact Hall]. apply extend_nan_free; assumption.
Qed.

Lemma extend_ordered (b : bounds) (p : XY.t) :
  nan_free_bounds b = true -> nan_free_point p = true ->
  (minX (extend b p) <=? maxX (extend b p))%js = true
  /\ (minY (extend b p) <=? maxY (extend b p))%js = true.
Proof.
  unfold nan_free_bounds, nan_free_point. intros Hb Hp.
  apply andb_true_iff in Hp as [Hx Hy].
  apply andb_true_iff in Hb as [Hb H4]. apply andb_true_iff in Hb as [Hb H3].
  apply andb_true_iff in Hb as [H1 H2].
  apply negb_true_iff in Hx, Hy, H1, H2, H3, H4.
  unfold extend. simpl. split; apply min_le_max; assumption.
Qed.

Lemma fold_left_snoc (ls : list (jsnum * jsnum)) (l : jsnum * jsnum) (b : bounds) :
  fold_left extend_leaf (ls ++ [l]) b
  = extend (fold_left extend_leaf ls b) (lonLatToMercator (fst l) (snd l)).
Proof. rewrite fold_left_app. reflexivity. Qed.

Lemma fold_ordered (ls : list (jsnum * jsnum)) :
  ls <> [] -> forallb projects_nan_free ls = true ->
  let b := fold_left extend_leaf ls initialBounds in
  (minX b <=? maxX b)%js = true /\ (minY b <=? maxY b)%js = true.
Proof.
  intros Hne Hall b. subst b.
  destruct (exists_last Hne) as (ls' & l & ->).
  rewrite forallb_app in Hall. apply andb_true_iff in Hall as [Hall Hl].
  simpl forallb in Hl. rewrite andb_true_r in Hl.
  rewrite fold_left_snoc.
  apply extend_ordered; [| exact Hl].
  apply fold_nan_free; [reflexivity | exact Hall].
Qed.

(** A leaf that projects to [NaN] leaves [NaN] in the bounds. *)
Lemma fold_keeps_nan_y (ls : list (jsnum * jsnum)) :
  forall b, is_nan (minY b) = true /\ is_nan (maxY b) = true ->
            is_nan (minY (fold_left extend_leaf ls b)) = true
            /\ is_nan (maxY (fold_left extend_leaf ls b)) = true.
Proof.
  induction ls as [| l ls IH]; intros b [H1 H2]; [split; assumption |].
  simpl fold_left. apply IH. unfold extend_leaf, extend. cbn [minY maxY].
  destruct (minY b), (maxY b); try discriminate. split; reflexivity.
Qed.

Lemma fold_nan_y (ls : list (jsnum * jsnum)) (l : jsnum * jsnum) :
  In l ls -> is_nan (XY.y (lonLatToMercator (fst l) (snd l))) = true ->
  forall b, is_nan (minY (fold_left extend_leaf ls b)) = true
            /\ is_nan (maxY (fold_left extend_leaf ls b)) = true.
Proof.
  induction ls as [| l' ls IH]; intros Hin Hnan b; [contradiction |].
  destruct Hin as [-> | Hin].
  - simpl fold_left. apply fold_keeps_nan_y.
    unfold extend_leaf, extend. cbn [minY maxY].
    destruct (XY.y (lonLatToMercator (fst l) (snd l))); try discriminate.
    rewrite Math_min_nan_r, Math_max_nan_r. split; reflexivity.
  - simpl. apply IH; assumption.
Qed.

(** The bounds of the MultiPoint of [[0, 0]] and [[0, 180]]. *)
Lemma polarPoints_bounds :
  exists b : bounds,
    getBoundsOfGeojson (featureCollection polarPoints) = Ok (Some b)
    /\ minY b = NaN /\ maxY b = NaN.
Proof.
  exists (fold_left extend_leaf (all_leaves polarPoints) initialBounds).
  split; [rewrite getBounds_featureCollection; reflexivity |].
  unfold polarPoints, all_leaves.
  cbn [flat_map feature_leaves leaves app fold_left].
  unfold extend_leaf, extend. cbn [minX minY maxX maxY fst snd].
  rewrite project_lat_180, Math_min_nan_r, Math_max_nan_r.
  split; reflexivity.
Qed.

End FoldFacts.

(** C1, as the code has it.  The bounds of a FeatureCollection with at
    least one feature are the fold of every coordinate leaf, none excluded.
    They are finite when at least one leaf is visited and every visited leaf
    projects to finite coordinates; a leaf whose ordinate projects to [NaN]
    leaves [NaN] in [minY] and [maxY]. *)
Theorem bounds_fold_every_leaf (fs : list gfeature) :
  fs <> [] ->
  exists b : bounds,
    getBoundsOfGeojson (featureCollection fs) = Ok (Some b)
    /\ b = fold_left extend_leaf (all_leaves fs) initialBounds
    /\ (all_leaves fs <> [] ->
        forallb projects_finite (all_leaves fs) = true ->
        finite_bounds b = true)
    /\ (forall l, In l (all_leaves fs) ->
                  is_nan (XY.y (lonLatToMercator (fst l) (snd l))) = true ->
                  is_nan (minY b) = true /\ is_nan (maxY b) = true).
Proof.
  intros Hne. exists (fold_left extend_leaf (all_leaves fs) initialBounds).
  split; [| split; [reflexivity | split]].
  - rewrite getBounds_featureCollection. destruct fs; [contradiction | reflexivity].
  - intros Hleaf Hall. apply fold_finite; [left; split; [reflexivity | exact Hleaf] | exact Hall].
  - intros l Hin Hnan. apply (fold_nan_y _ _ Hin Hnan).
Qed.

Lemma bounds_fold_every_leaf_witness :
  exists b : bounds,
    getBoundsOfGeojson
      (featureCollection [Some (Point, Position (num 0) (num 0))]) = Ok (Some b)
    /\ finite_bounds b = true.
Proof.
  destruct (@bounds_fold_every_leaf [Some (Point, Position (num 0) (num 0))])
    as (b & Hb & _ & Hfin & _); [discriminate |].
  exists b. split; [exact Hb |].
  apply Hfin; [discriminate |].
  unfold all_leaves, projects_finite. simpl. rewrite project_origin. reflexivity.
Defined.

(** The claim C1 fails on a MultiPoint of [[0, 0]] and [[0, 180]]: the first
    leaf projects to finite coordinates, the second to an ordinate [NaN],
    which is folded in: [minY] and [maxY] are [NaN]. *)
Lemma bounds_keep_nan :
  exists b : bounds,
    getBoundsOfGeojson (featureCollection polarPoints) = Ok (Some b)
    /\ all_leaves polarPoints = [(num 0, num 0); (num 0, num 180)]
    /\ finite_point (lonLatToMercator (num 0) (num 0)) = true
    /\ is_finite (XY.y (lonLatToMercator (num 0) (num 180))) = false
    /\ minY b = NaN /\ maxY b = NaN
    /\ finite_bounds b = false.
Proof.
  destruct polarPoints_bounds as (b & Hb & Hmin & Hmax).
  exists b. split; [exact Hb |].
  split; [reflexivity |].
  split; [rewrite project_origin; reflexivity |].
  split; [rewrite project_lat_180; reflexivity |].
  split; [exact Hmin | split; [exact Hmax |]].
  unfold finite_bounds. rewrite Hmin. cbn [is_finite].
  rewrite andb_false_r. reflexivity.
Qed.

(** C2, as the code has it.  The result is absent when no feature is
    extracted; and for a FeatureCollection in which at least one coordinate
    leaf is visited and no visited leaf projects to [NaN], the result is
    present with [minX <= maxX] and [minY <= maxY]. *)
Theorem bounds_absent_or_ordered :
  (forall geojson : value,
     extractFeatures geojson = Ok [] -> getBoundsOfGeojson geojson = Ok None)
  /\ (forall fs : list gfeature,
        all_leaves fs <> [] ->
        forallb projects_nan_free (all_leaves fs) = true ->
        exists b : bounds,
          getBoundsOfGeojson (featureCollection fs) = Ok (Some b)
          /\ (minX b <=? maxX b)%js = true
          /\ (minY b <=? maxY b)%js = true).
Proof.
  split.
  - intros geojson H. unfold getBoundsOfGeojson. rewrite H. reflexivity.
  - intros fs Hleaf Hall.
    exists (fold_left extend_leaf (all_leaves fs) initialBounds). split.
    + rewrite getBounds_featureCollection.
      destruct fs; [contradiction Hleaf; reflexivity | reflexivity].
    + apply fold_ordered; assumption.
Qed.

Lemma bounds_absent_or_ordered_witness :
  getBoundsOfGeojson VNull = Ok None
  /\ exists b : bounds,
       getBoundsOfGeojson
         (featureCollection [Some (Point, Position (num 0) (num 0))]) = Ok (Some b)
       /\ (minX b <=? maxX b)%js = true
       /\ (minY b <=? maxY b)%js = true.
Proof.
  destruct bounds_absent_or_ordered as [Habsent Hordered].
  split; [apply Habsent; reflexivity |].
  apply Hordered; [discriminate |].
  unfold all_leaves, projects_nan_free. simpl. rewrite project_origin. reflexivity.
Defined.

(** The claim C2 fails twice.  A Feature without geometry is a feature set
    in which no leaf is visited, yet the result is present: the initial
    bounds, with [minX > maxX].  And with a leaf that projects to [NaN] the
    bounds of a visited, non-empty set are not ordered. *)
Lemma bounds_present_unordered :
  (getBoundsOfGeojson (featureCollection noGeometry) = Ok (Some initialBounds)
   /\ all_leaves noGeometry = []
   /\ (minX initialBounds <=? maxX initialBounds)%js = false)
  /\ exists b : bounds,
       getBoundsOfGeojson (featureCollection polarPoints) = Ok (Some b)
       /\ all_leaves polarPoints <> []
       /\ (minY b <=? maxY b)%js = false.
Proof.
  split.
  - split; [rewrite getBounds_featureCollection; reflexivity | split; reflexivity].
  - destruct polarPoints_bounds as (b & Hb & Hmin & Hmax).
    exists b. split; [exact Hb | split; [discriminate |]].
    rewrite Hmin, Hmax. reflexivity.
Qed.

(* ================================================================== *)
(** * The fit algorithm *)
(* ================================================================== *)

Section FitFacts.

Local Open Scope R_scope.

Lemma mul_comm (a b : jsnum) : (a * b)%js = (b * a)%js.
Proof.
  destruct a, b; simpl; try reflexivity. f_equal. apply Rmult_comm.
Qed.

Lemma or_else_falsy (w d : jsnum) : w = Fin 0 \/ w = NaN -> or_else w d = d.
Proof.
  intros [-> | ->]; [| reflexivity].
  unfold or_else, truthy. rewrite Rcmp_eq; reflexivity.
Qed.

Lemma or_else_truthy (w d : jsnum) : w <> Fin 0 -> w <> NaN -> or_else w d = w.
Proof.
  intros H0 Hnan. unfold or_else, truthy.
  destruct w as [| | | r]; try reflexivity; [contradiction |].
  destruct (Rcmp_spec r 0) as [-> | |]; [contradiction | reflexivity | reflexivity].
Qed.

Lemma or_else_is_max (w : jsnum) :
  w = Fin 0 \/ (epsilon <=? w)%js = true -> or_else w epsilon = Math_max w epsilon.
Proof.
  unfold epsilon. intros [-> | H].
  - rewrite or_else_falsy by (left; reflexivity).
    rewrite Math_max_fin. unfold Rmax.
    destruct (Rle_dec 0 (1 / 1000000)); [reflexivity | lra].
  - destruct w as [| | | r]; try discriminate; [reflexivity |].
    unfold leb in H. simpl in H.
    assert (Hr : 1 / 1000000 <= r)
      by (destruct (Rcmp_spec (1 / 1000000) r); [lra | lra | discriminate]).
    rewrite or_else_truthy; [| intros E; injection E; lra | discriminate].
    rewrite Math_max_fin. unfold Rmax.
    destruct (Rle_dec r (1 / 1000000)); [f_equal; lra | reflexivity].
Qed.

End FitFacts.

(** C3, as the code has it.  [worldW] is [maxX - minX], replaced by
    [1e-6] when that difference is [0] or [NaN] (and so equal to
    [max(maxX - minX, 1e-6)] when the difference is [0] or at least [1e-6]);
    likewise [worldH].  The scale is the lesser of the two quotients of the
    padded surface by the world extent, and the translations are as the
    formula of the claim states. *)
Theorem fitViewport_formula (padding cssW cssH : jsnum) (b : bounds) :
  let w := (maxX b - minX b)%js in
  let h := (maxY b - minY b)%js in
  let fit := fitViewport padding cssW cssH b in
  (w = Fin 0 \/ w = NaN -> worldW b = epsilon)
  /\ (w <> Fin 0 -> w <> NaN -> worldW b = w)
  /\ (w = Fin 0 \/ (epsilon <=? w)%js = true -> worldW b = Math_max w epsilon)
  /\ (h = Fin 0 \/ h = NaN -> worldH b = epsilon)
  /\ (h <> Fin 0 -> h <> NaN -> worldH b = h)
  /\ (h = Fin 0 \/ (epsilon <=? h)%js = true -> worldH b = Math_max h epsilon)
  /\ scale fit = Math_min ((cssW - num 2 * padding) / worldW b)%js
                          ((cssH - num 2 * padding) / worldH b)%js
  /\ translateX fit
     = (- minX b * cssW * scale fit + padding
        + (cssW - worldW b * cssW * scale fit - num 2 * padding) / num 2)%js
  /\ translateY fit
     = (- minY b * cssH * scale fit + padding
        + (cssH - worldH b * cssH * scale fit - num 2 * padding) / num 2)%js.
Proof.
  intros w h fit.
  split; [apply or_else_falsy |].
  split; [apply or_else_truthy |].
  split; [apply or_else_is_max |].
  split; [apply or_else_falsy |].
  split; [apply or_else_truthy |].
  split; [apply or_else_is_max |].
  subst fit. unfold fitViewport. cbn [scale translateX translateY].
  rewrite (mul_comm (num 2) padding).
  split; [reflexivity | split; reflexivity].
Qed.

Lemma fitViewport_formula_witness :
  worldW pointBounds = epsilon
  /\ worldW pointBounds = Math_max (maxX pointBounds - minX pointBounds)%js epsilon.
Proof.
  destruct (fitViewport_formula (num 20) (num 800) (num 600) pointBounds)
    as (Hzero & _ & Hmax & _).
  assert (H0 : (maxX pointBounds - minX pointBounds)%js = Fin 0)
    by (unfold sub; simpl; f_equal; lra).
  split; [apply Hzero | apply Hmax]; left; exact H0.
Defined.

(** The claim C3 fails on bounds [5e-7] wide: the code keeps the width,
    where the maximum with [1e-6] is [1e-6]; and no positive epsilon makes
    [worldW] the maximum of the width and epsilon on all bounds. *)
Lemma worldW_not_max :
  worldW narrowBounds = Fin (1 / 2000000)
  /\ Math_max (maxX narrowBounds - minX narrowBounds)%js epsilon = epsilon
  /\ ~ (exists eps : R,
          (0 < eps)%R
          /\ forall b : bounds, worldW b = Math_max (maxX b - minX b)%js (Fin eps)).
Proof.
  assert (Hw : (maxX narrowBounds - minX narrowBounds)%js = Fin (1 / 2000000))
    by (unfold sub; simpl; f_equal; lra).
  assert (H0 : (maxX pointBounds - minX pointBounds)%js = Fin 0)
    by (unfold sub; simpl; f_equal; lra).
  assert (Hnarrow : worldW narrowBounds = Fin (1 / 2000000)).
  { unfold worldW. rewrite Hw. apply or_else_truthy; [| discriminate].
    intros E. injection E. lra. }
  split; [exact Hnarrow | split].
  - rewrite Hw. unfold epsilon. rewrite Math_max_fin. unfold Rmax.
    destruct (Rle_dec (1 / 2000000) (1 / 1000000)); [reflexivity | lra].
  - intros (eps & Hpos & H).
    pose proof (H pointBounds) as Hp. pose proof (H narrowBounds) as Hn.
    unfold worldW in Hp. rewrite H0 in Hp.
    rewrite or_else_falsy in Hp by (left; reflexivity).
    rewrite Hnarrow, Hw in Hn.
    rewrite Math_max_fin in Hp, Hn. unfold epsilon in Hp.
    injection Hp as Hp. injection Hn as Hn.
    unfold Rmax in Hp, Hn.
    destruct (Rle_dec 0 eps); destruct (Rle_dec (1 / 2000000) eps); lra.
Qed.

(* ================================================================== *)
(** * The renderer *)
(* ================================================================== *)

Arguments numeric_pair : simpl never.
Arguments pixel : simpl never.

Section DrawFacts.

Variable styles : MergedStyles.
Variable v : viewport.
Variables ctxW ctxH : jsnum.

Lemma drawCoords_array (items : list value) :
  drawCoords v ctxW ctxH (VArr items)
  = Ok (match numeric_pair (VArr items) with
        | Some (lon, lat) => Some (pixel v ctxW ctxH lon lat)
        | None => None
        end).
Proof.
  unfold drawCoords, numeric_pair. simpl.
  destruct (nth 0 items VUndef); try reflexivity.
  destruct (nth 1 items VUndef); reflexivity.
Qed.

Lemma drawMarker_ok (c : XY.t) : drawMarker styles c = (marker styles c, Ok tt).
Proof.
  unfold marker, paint, drawMarker, dwhen.
  destruct (str_set (PointStyle.fill (mpoint styles)));
    destruct (str_set (PointStyle.stroke (mpoint styles))); reflexivity.
Qed.

Lemma pixels_cons_some (c : value) (cs : list value) (lon lat : jsnum) :
  numeric_pair c = Some (lon, lat) ->
  pixels v ctxW ctxH (c :: cs) = pixel v ctxW ctxH lon lat :: pixels v ctxW ctxH cs.
Proof. intros H. unfold pixels. simpl. rewrite H. reflexivity. Qed.

Lemma pixels_cons_none (c : value) (cs : list value) :
  numeric_pair c = None -> pixels v ctxW ctxH (c :: cs) = pixels v ctxW ctxH cs.
Proof. intros H. unfold pixels. simpl. rewrite H. reflexivity. Qed.

(** One coordinate of a path: a pair of numbers issues its call, anything
    else in an array issues none. *)
Lemma drawVertex_array (items : list value) (started : bool) :
  drawVertex v ctxW ctxH (VArr items) started
  = (path started (pixels v ctxW ctxH [VArr items]),
     Ok (match numeric_pair (VArr items) with Some _ => true | None => started end)).
Proof.
  unfold drawVertex. rewrite drawCoords_array.
  destruct (numeric_pair (VArr items)) as [[lon lat] |] eqn:E.
  - rewrite (@pixels_cons_some _ [] _ _ E). destruct started; reflexivity.
  - rewrite (@pixels_cons_none _ [] E). reflexivity.
Qed.

Lemma path_app (started : bool) (ps qs : list XY.t) :
  path started (ps ++ qs)
  = path started ps ++ path (match ps with [] => started | _ => true end) qs.
Proof.
  revert started. induction ps as [| p ps IH]; intros started; [reflexivity |].
  simpl. f_equal. rewrite IH. destruct ps; reflexivity.
Qed.

Lemma drawVertices_arrays (cs : list value) :
  forallb is_array cs = true ->
  forall started,
    dfor_of (drawVertex v ctxW ctxH) cs started
    = (path started (pixels v ctxW ctxH cs),
       Ok (match pixels v ctxW ctxH cs with [] => started | _ => true end)).
Proof.
  induction cs as [| c cs IH]; intros Harr started; [reflexivity |].
  simpl in Harr. apply andb_true_iff in Harr as [Hc Harr].
  destruct c as [| | | | | items |]; try discriminate.
  cbn [dfor_of]. rewrite drawVertex_array. unfold dbind.
  destruct (numeric_pair (VArr items)) as [[lon lat] |] eqn:E.
  - rewrite (IH Harr), !(@pixels_cons_some _ _ _ _ E). simpl.
    destruct (pixels v ctxW ctxH cs); reflexivity.
  - rewrite (IH Harr), !(@pixels_cons_none _ _ E). reflexivity.
Qed.

Lemma drawRing_arrays (cs : list value) (started : bool) :
  forallb is_array cs = true ->
  drawRing v ctxW ctxH (VArr cs) started
  = (path started (pixels v ctxW ctxH cs),
     Ok (match pixels v ctxW ctxH cs with [] => started | _ => true end)).
Proof.
  intros Harr. unfold drawRing. simpl.
  rewrite (drawVertices_arrays cs Harr). reflexivity.
Qed.

Lemma drawPoint_array (items : list value) (u : unit) :
  drawPoint styles v ctxW ctxH (VArr items) u
  = (flat_map (marker styles) (pixels v ctxW ctxH [VArr items]), Ok tt).
Proof.
  unfold drawPoint. rewrite drawCoords_array.
  destruct (numeric_pair (VArr items)) as [[lon lat] |] eqn:E.
  - rewrite (@pixels_cons_some _ [] _ _ E). simpl. rewrite drawMarker_ok.
    rewrite !app_nil_r. reflexivity.
  - rewrite (@pixels_cons_none _ [] E). reflexivity.
Qed.

Lemma pixels_app (cs ds : list value) :
  pixels v ctxW ctxH (cs ++ ds) = pixels v ctxW ctxH cs ++ pixels v ctxW ctxH ds.
Proof. apply flat_map_app. Qed.

Lemma drawPoints_arrays (cs : list value) :
  forallb is_array cs = true ->
  dfor_of (drawPoint styles v ctxW ctxH) cs tt
  = (flat_map (marker styles) (pixels v ctxW ctxH cs), Ok tt).
Proof.
  induction cs as [| c cs IH]; intros Harr; [reflexivity |].
  simpl in Harr. apply andb_true_iff in Harr as [Hc Harr].
  destruct c as [| | | | | items |]; try discriminate.
  cbn [dfor_of]. rewrite drawPoint_array. unfold dbind. rewrite (IH Harr).
  change (VArr items :: cs) with ([VArr items] ++ cs).
  rewrite pixels_app, flat_map_app. reflexivity.
Qed.

Lemma drawFeature_lineString (i : value) (cs : list value) :
  forallb is_array cs = true ->
  drawFeature styles v ctxW ctxH (stored i (geometry "LineString" (VArr cs)))
  = (lineHeader styles ++ path false (pixels v ctxW ctxH cs) ++ [stroke; setLineDash []],
     Ok tt).
Proof.
  intros Harr. unfold drawFeature, lineHeader. simpl.
  rewrite (drawRing_arrays cs false Harr).
  destruct (LineStyle.lineDash (mline styles)); simpl;
    rewrite ?app_nil_r; reflexivity.
Qed.

Lemma drawFeature_multiPoint (i : value) (cs : list value) :
  forallb is_array cs = true ->
  drawFeature styles v ctxW ctxH (stored i (geometry "MultiPoint" (VArr cs)))
  = (flat_map (marker styles) (pixels v ctxW ctxH cs), Ok tt).
Proof.
  intros Harr. unfold drawFeature. simpl.
  rewrite (drawPoints_arrays cs Harr). reflexivity.
Qed.

Lemma pixels_in (cs : list value) (lon lat : jsnum) (rest : list value) :
  In (VArr (VNum lon :: VNum lat :: rest)) cs ->
  In (pixel v ctxW ctxH lon lat) (pixels v ctxW ctxH cs).
Proof.
  intros Hin. unfold pixels. apply in_flat_map.
  exists (VArr (VNum lon :: VNum lat :: rest)). split; [exact Hin |].
  simpl. left. reflexivity.
Qed.

Lemma path_in (started : bool) (ps : list XY.t) (p : XY.t) :
  In p ps ->
  In (moveTo (XY.x p) (XY.y p)) (path started ps)
  \/ In (lineTo (XY.x p) (XY.y p)) (path started ps).
Proof.
  revert started. induction ps as [| q ps IH]; intros started Hin; [contradiction |].
  destruct Hin as [-> | Hin].
  - destruct started; simpl; [right | left]; left; reflexivity.
  - destruct (IH true Hin) as [H | H]; [left | right]; simpl; right; exact H.
Qed.

Lemma drawRings_arrays (rings : list (list value)) :
  forallb (forallb is_array) rings = true ->
  forall started,
    dfor_of (drawRing v ctxW ctxH) (map VArr rings) started
    = (path started (pixels v ctxW ctxH (List.concat rings)),
       Ok (match pixels v ctxW ctxH (List.concat rings) with [] => started | _ => true end)).
Proof.
  induction rings as [| r rings IH]; intros Harr started; [reflexivity |].
  simpl in Harr. apply andb_true_iff in Harr as [Hr Harr].
  cbn [map dfor_of List.concat]. rewrite (drawRing_arrays r started Hr). unfold dbind.
  rewrite (IH Harr), pixels_app, path_app.
  destruct (pixels v ctxW ctxH r); [reflexivity |].
  destruct (pixels v ctxW ctxH (List.concat rings)); reflexivity.
Qed.

Lemma drawFeature_polygon (i : value) (rings : list (list value)) :
  forallb (forallb is_array) rings = true ->
  drawFeature styles v ctxW ctxH (stored i (geometry "Polygon" (VArr (map VArr rings))))
  = (beginPath
     :: path false (pixels v ctxW ctxH (List.concat rings))
     ++ paint (FillStyle.fill (mpolygon styles)) (FillStyle.stroke (mpolygon styles))
              (FillStyle.lineWidth (mpolygon styles)),
     Ok tt).
Proof.
  intros Harr. unfold drawFeature, paint. simpl.
  rewrite (drawRings_arrays rings Harr false). unfold dwhen.
  destruct (str_set (FillStyle.fill (mpolygon styles)));
    destruct (str_set (FillStyle.stroke (mpolygon styles))); simpl;
    rewrite ?app_nil_r; reflexivity.
Qed.

End DrawFacts.

Lemma polarLine_pixels :
  pixels initialViewport (num 800) (num 600) polarLine
  = [XY.mk (Fin 400) (Fin 300); XY.mk (Fin 400) NaN].
Proof.
  unfold pixels, polarLine. simpl. rewrite pixel_origin.
  rewrite pixel_lat_180.
  reflexivity.
Qed.

(** The claim C4 fails on the Point feature at [[0, 180]]: its pixel has
    the ordinate [NaN], and the [arc] call is issued with it. *)
Lemma polar_point_drawn :
  XY.y (pixel initialViewport (num 800) (num 600) (num 0) (num 180)) = NaN
  /\ drawFeature defaultStyles initialViewport (num 800) (num 600) polarPoint
     = (beginPath
        :: arc (Fin 400) NaN (num_or (Some (num 4)) (num 3)) (num 0) (Math_PI * num 2)%js
        :: [set_fillStyle "#1976d2"; fill;
            set_lineWidth (num_or (Some (num 1)) (num 1));
            set_strokeStyle "#fff"; stroke], Ok tt).
Proof.
  split.
  - rewrite pixel_lat_180. reflexivity.
  - change (drawFeature defaultStyles initialViewport (num 800) (num 600) polarPoint)
      with (drawPoint defaultStyles initialViewport (num 800) (num 600)
              (VArr [VNum (num 0); VNum (num 180)]) tt).
    rewrite (@drawPoint_array defaultStyles initialViewport (num 800) (num 600)
               [VNum (num 0); VNum (num 180)] tt).
    rewrite (@pixels_cons_some initialViewport (num 800) (num 600)
               (VArr [VNum (num 0); VNum (num 180)]) [] (num 0) (num 180) eq_refl).
    rewrite pixel_lat_180.
    reflexivity.
Qed.

(* ================================================================== *)
(** * Further properties of the extractor *)
(* ================================================================== *)

(** X1.  The four shapes of input carrying the same geometries yield the same
    features: a bare geometry and a Feature yield the one feature, a
    GeometryCollection and a FeatureCollection the features in order. *)
Theorem extract_normalises (k : kind) (c : coords) (g : gfeature) (gs : list gfeature) :
  extractFeatures (geometry (kind_name k) (encode c))
  = extractFeatures (featureCollection [Some (k, c)])
  /\ extractFeatures (encode_feature g) = extractFeatures (featureCollection [g])
  /\ extractFeatures (geometryCollection gs) = extractFeatures (featureCollection gs)
  /\ extractFeatures (featureCollection gs) = Ok (map encode_feature gs).
Proof.
  split; [| split; [| split]].
  - assert (Hc : to_boolean (encode c) = true) by (destruct c; reflexivity).
    transitivity (Ok [encode_feature (Some (k, c))]); [| reflexivity].
    unfold extractFeatures, geometry. destruct k; simpl; rewrite Hc; reflexivity.
  - reflexivity.
  - unfold extractFeatures, geometryCollection, featureCollection. simpl.
    unfold encode_feature. rewrite map_map. reflexivity.
  - reflexivity.
Qed.

Lemma iterate_throws (w : value) (e : error) :
  iterate (vor w (VArr [])) = Throw e <-> e = TypeError /\ non_iterable w = true.
Proof.
  unfold vor. destruct w as [| | [|] | n | s | items | props]; simpl.
  all: try (split; [discriminate | intros [_ H]; discriminate]).
  - split; [intros H; injection H as <-; auto | intros [-> _]; reflexivity].
  - destruct (truthy n); simpl.
    + split; [intros H; injection H as <-; auto | intros [-> _]; reflexivity].
    + split; [discriminate | intros [_ H]; discriminate].
  - destruct (negb (String.eqb s "")); simpl;
      split; try discriminate; intros [_ H]; discriminate.
  - split; [intros H; injection H as <-; auto | intros [-> _]; reflexivity].
Qed.

(** X2.  The extractor raises nothing but a [TypeError], and only on an object
    tagged FeatureCollection or GeometryCollection whose [features] or
    [geometries] is a truthy value that cannot be iterated. *)
Theorem extract_throws_iff (v : value) (e : error) :
  extractFeatures v = Throw e
  <-> e = TypeError
      /\ exists props,
           v = VObj props
           /\ (lookup "type" props = VStr "FeatureCollection"
               /\ non_iterable (lookup "features" props) = true
               \/ lookup "type" props = VStr "GeometryCollection"
                  /\ non_iterable (lookup "geometries" props) = true).
Proof.
  assert (Hstr : forall t lit, is_str t lit = true <-> t = VStr lit).
  { intros t lit. destruct t; simpl; try (split; discriminate).
    rewrite String.eqb_eq. split; [intros ->; reflexivity | intros H; injection H; auto]. }
  unfold extractFeatures.
  destruct v as [| | b | n | s | items | props]; simpl.
  1, 2: split; [discriminate | intros [_ (p & H & _)]; discriminate].
  1: destruct b; simpl; split; try discriminate; intros [_ (p & H & _)]; discriminate.
  1: destruct (truthy n); simpl; split; try discriminate;
       intros [_ (p & H & _)]; discriminate.
  1: destruct (negb (String.eqb s "")); simpl; split; try discriminate;
       intros [_ (p & H & _)]; discriminate.
  1: split; [discriminate | intros [_ (p & H & _)]; discriminate].
  destruct (is_str (lookup "type" props) "FeatureCollection") eqn:Hfc.
  { apply Hstr in Hfc. rewrite iterate_throws. split.
    - intros [-> Hn]. split; [reflexivity |]. exists props. auto.
    - intros [-> (p & Hp & H)]. injection Hp as <-. split; [reflexivity |].
      destruct H as [[_ H] | [H _]]; [exact H | rewrite Hfc in H; discriminate]. }
  destruct (is_str (lookup "type" props) "Feature") eqn:Hf.
  { apply Hstr in Hf. split; [discriminate |].
    intros [_ (p & Hp & H)]. injection Hp as <-.
    destruct H as [[H _] | [H _]]; rewrite Hf in H; discriminate. }
  destruct (is_str (lookup "type" props) "GeometryCollection") eqn:Hgc.
  { apply Hstr in Hgc.
    destruct (iterate (vor (lookup "geometries" props) (VArr []))) as [l | e'] eqn:Hit.
    - simpl. split; [discriminate |].
      intros [-> (p & Hp & H)]. injection Hp as <-.
      destruct H as [[H _] | [_ H]]; [rewrite Hgc in H; discriminate |].
      assert (Ht : iterate (vor (lookup "geometries" props) (VArr [])) = Throw TypeError)
        by (apply iterate_throws; auto).
      rewrite Hit in Ht. discriminate.
    - simpl. apply iterate_throws in Hit as [-> Hn]. split.
      + intros H. injection H as <-. split; [reflexivity |]. exists props. auto.
      + intros [-> _]. reflexivity. }
  destruct (to_boolean (lookup "type" props) && to_boolean (lookup "coordinates" props));
    split; try discriminate.
  all: intros [_ (p & Hp & H)]; injection Hp as <-.
  all: destruct H as [[H _] | [H _]]; rewrite H in *; simpl in *; discriminate.
Qed.

Lemma map_index_nth {A B : Type} (f : A -> nat -> B) (l : list A) :
  forall (k i : nat) (a : A),
    nth_error l i = Some a -> nth_error (map_index f k l) i = Some (f a (k + i)%nat).
Proof.
  induction l as [| b l IH]; intros k [| i] a H; simpl in *; try discriminate.
  - injection H as ->. rewrite Nat.add_0_r. reflexivity.
  - rewrite (IH (S k) i a H). f_equal. f_equal. lia.
Qed.

Lemma map_index_length {A B : Type} (f : A -> nat -> B) (l : list A) :
  forall k, List.length (map_index f k l) = List.length l.
Proof. induction l as [| b l IH]; intros k; simpl; [reflexivity | rewrite IH; reflexivity]. Qed.

Lemma build_features (getFeatureId : option (value -> nat -> value)) (gj : value)
    (st : state) (fs : list value) :
  extractFeatures gj = Ok fs ->
  features (fst (buildInternalFeatures getFeatureId gj st))
  = map_index (entry getFeatureId) 0 fs
  /\ vp (fst (buildInternalFeatures getFeatureId gj st)) = vp st.
Proof.
  intros H. unfold buildInternalFeatures. rewrite H.
  destruct (getBoundsOfGeojson gj); split; reflexivity.
Qed.

(** X3.  [buildInternalFeatures] stores one entry per extracted feature, in
    order: the entry of index [i] holds the feature of index [i], under
    the identifier [getFeatureId(f, i)], or [i] when no identifier function
    is given.  The viewport is not touched. *)
Theorem build_entries (getFeatureId : option (value -> nat -> value)) (gj : value)
    (st : state) (fs : list value) :
  extractFeatures gj = Ok fs ->
  let st' := fst (buildInternalFeatures getFeatureId gj st) in
  List.length (features st') = List.length fs
  /\ (forall i f, nth_error fs i = Some f ->
                  nth_error (features st') i = Some (entry getFeatureId f i))
  /\ vp st' = vp st.
Proof.
  intros H st'. destruct (build_features getFeatureId gj st H) as [Hf Hv].
  subst st'. rewrite Hf. split; [apply map_index_length | split; [| exact Hv]].
  intros i f Hi. apply (map_index_nth (entry getFeatureId) fs 0 i Hi).
Qed.

Lemma build_entries_witness :
  nth_error
    (features (fst (buildInternalFeatures None
                      (featureCollection [None; Some (Point, Position (num 0) (num 0))])
                      (initialState (num 1))))) 1
  = Some (entry None (encode_feature (Some (Point, Position (num 0) (num 0)))) 1).
Proof.
  destruct (@build_entries None
              (featureCollection [None; Some (Point, Position (num 0) (num 0))])
              (initialState (num 1)) _ eq_refl) as (_ & H & _).
  apply H. reflexivity.
Defined.

(* ================================================================== *)
(** * Exceptions on malformed features *)
(* ================================================================== *)

Lemma for_of_app {A S : Type} (body : A -> S -> result S) (l1 l2 : list A) :
  forall s, for_of body (l1 ++ l2) s = s' <- for_of body l1 s ;; for_of body l2 s'.
Proof.
  induction l1 as [| a l1 IH]; intros s; [reflexivity |].
  simpl. destruct (body a s); simpl; [apply IH | reflexivity].
Qed.

(** X4.  A [null] entry in the [features] of a FeatureCollection, after
    well-formed features: the bounds computation raises a [TypeError], so
    [buildInternalFeatures] stores the new feature list and leaves the
    bounds of the previous input in place.  Of the stored [null] entry,
    [drawFeature] draws nothing and the hit-test raises a [TypeError]. *)
Theorem null_feature_entry (gs : list gfeature) (rest : list value)
    (getFeatureId : option (value -> nat -> value)) (st : state) :
  let vs := map encode_feature gs ++ VNull :: rest in
  getBoundsOfGeojson (rawCollection vs) = Throw TypeError
  /\ buildInternalFeatures getFeatureId (rawCollection vs) st
     = (mkState (vp st) (map_index (entry getFeatureId) 0 vs) (featureBounds st) (dpr st),
        Throw TypeError)
  /\ forall (styles : MergedStyles) (v : viewport) (w h x y : jsnum) (i : value),
       drawFeature styles v w h (mkIFeature i VNull) = ([], Ok tt)
       /\ hitFeature styles v w h x y (mkIFeature i VNull) = Throw TypeError.
Proof.
  intros vs.
  assert (Hb : getBoundsOfGeojson (rawCollection vs) = Throw TypeError).
  { unfold getBoundsOfGeojson.
    change (extractFeatures (rawCollection vs)) with (Ok vs). simpl bind.
    unfold vs at 1. rewrite length_app. simpl List.length.
    rewrite Nat.add_succ_r. simpl Nat.eqb. cbv iota.
    unfold vs. rewrite for_of_app, visitFeatures_encode. reflexivity. }
  split; [exact Hb | split].
  - unfold buildInternalFeatures.
    change (extractFeatures (rawCollection vs)) with (Ok vs).
    rewrite Hb. reflexivity.
  - intros. split; reflexivity.
Qed.

(** X5.  A geometry of one of the six types that has no [coordinates]: the
    bounds computation and the drawing of its feature raise a [TypeError],
    and so does its hit-test, save for a MultiPoint, which the hit-test
    does not look at. *)
Theorem missing_coordinates (k : kind) (gprops : list (string * value)) (i : value)
    (styles : MergedStyles) (v : viewport) (w h x y : jsnum) :
  lookup "type" gprops = VStr (kind_name k) ->
  lookup "coordinates" gprops = VUndef ->
  let f := stored i (VObj gprops) in
  getBoundsOfGeojson (feature f) = Throw TypeError
  /\ snd (drawFeature styles v w h f) = Throw TypeError
  /\ hitFeature styles v w h x y f
     = match k with MultiPoint => Ok false | _ => Throw TypeError end.
Proof.
  intros Ht Hc f. subst f. unfold stored. cbn [feature].
  split; [| split].
  - unfold getBoundsOfGeojson.
    change (extractFeatures (synthetic (VObj gprops))) with (Ok [synthetic (VObj gprops)]).
    simpl bind. simpl Nat.eqb. cbv iota.
    unfold for_of, visitFeature. simpl. rewrite Ht, Hc.
    destruct k; reflexivity.
  - unfold drawFeature. simpl. rewrite Ht, Hc.
    destruct k; simpl; try reflexivity;
      destruct (LineStyle.lineDash (mline styles)); reflexivity.
  - unfold hitFeature. simpl. rewrite Ht, Hc. destruct k; reflexivity.
Qed.

Lemma missing_coordinates_witness :
  getBoundsOfGeojson (synthetic (VObj [("type", VStr "Point")]%string)) = Throw TypeError.
Proof.
  apply (@missing_coordinates Point [("type", VStr "Point")]%string VNull
           defaultStyles initialViewport (num 800) (num 600) (num 0) (num 0)
           eq_refl eq_refl).
Defined.

(* ================================================================== *)
(** * Further properties of the hit-test geometry *)
(* ================================================================== *)

Section RayCasting.

Lemma crossings_same_side (x y : jsnum) (side : bool) (rest : list (jsnum * jsnum)) :
  forall pj : jsnum * jsnum,
    (snd pj >? y)%js = side ->
    (forall p, In p rest -> (snd p >? y)%js = side) ->
    crossings x y pj rest false = false.
Proof.
  induction rest as [| pi rest IH]; intros pj Hj Hall; [reflexivity |].
  simpl. assert (Hi : (snd pi >? y)%js = side) by (apply Hall; left; reflexivity).
  unfold intersect. destruct pi as [xi yi], pj as [xj yj]. simpl in Hi, Hj.
  rewrite Hi, Hj, eqb_reflx. simpl.
  apply IH; [exact Hi | intros p Hp; apply Hall; right; exact Hp].
Qed.

End RayCasting.

(** X8.  A query is never inside a ring whose vertices all lie on one side of
    its horizontal line: all with an ordinate greater than the query's, or
    none ([NaN] ordinates count as not greater). *)
Theorem pointInPolygon_one_side (x y : jsnum) (poly : list (jsnum * jsnum)) (side : bool) :
  (forall p, In p poly -> (snd p >? y)%js = side) ->
  pointInPolygon x y poly = false.
Proof.
  intros Hall. unfold pointInPolygon. destruct poly as [| p0 poly']; [reflexivity |].
  apply (@crossings_same_side x y side (p0 :: poly')); [| exact Hall].
  apply Hall. destruct (exists_last (l := p0 :: poly')) as (l' & a & E); [discriminate |].
  rewrite E at 1. rewrite last_last. rewrite E. apply in_or_app. right. left. reflexivity.
Qed.

Lemma pointInPolygon_one_side_witness :
  pointInPolygon (Fin 5) (Fin 50) (rectangle 0 0 10 10) = false.
Proof.
  apply (@pointInPolygon_one_side (Fin 5) (Fin 50) (rectangle 0 0 10 10) false).
  intros p Hp. unfold rectangle in Hp. simpl in Hp.
  repeat (destruct Hp as [<- | Hp]);
    try (unfold gtb; simpl; rewrite Rcmp_lt by lra; reflexivity).
  contradiction.
Defined.



(* ================================================================== *)
(** * Further properties of the bounds *)
(* ================================================================== *)

(** Split on every comparison of reals in the goal, and close each case
    by computation or linear arithmetic. *)
Ltac cmp_cases :=
  repeat (simpl; match goal with
                 | |- context [Rcmp ?u ?v] => destruct (Rcmp_spec u v)
                 end);
  simpl; try reflexivity; try discriminate;
  try (f_equal; lra); try (exfalso; lra).

Section OrderFacts.

Lemma leb_trans (a b c : jsnum) :
  (a <=? b)%js = true -> (b <=? c)%js = true -> (a <=? c)%js = true.
Proof.
  destruct a, b, c; unfold leb; simpl; try discriminate; try reflexivity.
  all: intros H1 H2; revert H1 H2; cmp_cases.
Qed.

Lemma min_le_l (a x : jsnum) :
  is_nan a = false -> is_nan x = false -> (Math_min a x <=? a)%js = true.
Proof.
  destruct a, x; intros Ha Hx; try discriminate; try reflexivity;
    unfold Math_min, leb; cmp_cases.
Qed.

Lemma min_le_r (a x : jsnum) :
  is_nan a = false -> is_nan x = false -> (Math_min a x <=? x)%js = true.
Proof.
  destruct a, x; intros Ha Hx; try discriminate; try reflexivity;
    unfold Math_min, leb; cmp_cases.
Qed.

Lemma max_ge_l (a x : jsnum) :
  is_nan a = false -> is_nan x = false -> (a <=? Math_max a x)%js = true.
Proof.
  destruct a, x; intros Ha Hx; try discriminate; try reflexivity;
    unfold Math_max, leb; cmp_cases.
Qed.

Lemma max_ge_r (a x : jsnum) :
  is_nan a = false -> is_nan x = false -> (x <=? Math_max a x)%js = true.
Proof.
  destruct a, x; intros Ha Hx; try discriminate; try reflexivity;
    unfold Math_max, leb; cmp_cases.
Qed.

Lemma Math_min_choice (a x : jsnum) : Math_min a x = a \/ Math_min a x = x.
Proof.
  destruct a, x; unfold Math_min; simpl; auto.
  destruct (Rcmp r r0); auto.
Qed.

Lemma Math_max_choice (a x : jsnum) : Math_max a x = a \/ Math_max a x = x.
Proof.
  destruct a, x; unfold Math_max; simpl; auto.
  destruct (Rcmp r r0); auto.
Qed.

Lemma Math_min_swap (a x y : jsnum) :
  Math_min (Math_min a x) y = Math_min (Math_min a y) x.
Proof. destruct a, x, y; unfold Math_min; cmp_cases. Qed.

Lemma Math_max_swap (a x y : jsnum) :
  Math_max (Math_max a x) y = Math_max (Math_max a y) x.
Proof. destruct a, x, y; unfold Math_max; cmp_cases. Qed.

End OrderFacts.

Section ContainmentFacts.

Lemma nan_free_bounds_fields (b : bounds) :
  nan_free_bounds b = true ->
  is_nan (minX b) = false /\ is_nan (minY b) = false
  /\ is_nan (maxX b) = false /\ is_nan (maxY b) = false.
Proof.
  unfold nan_free_bounds. intros H.
  apply andb_true_iff in H as [H H4]. apply andb_true_iff in H as [H H3].
  apply andb_true_iff in H as [H1 H2].
  apply negb_true_iff in H1, H2, H3, H4. auto.
Qed.

Lemma nan_free_point_fields (p : XY.t) :
  nan_free_point p = true -> is_nan (XY.x p) = false /\ is_nan (XY.y p) = false.
Proof.
  unfold nan_free_point. intros H. apply andb_true_iff in H as [H1 H2].
  apply negb_true_iff in H1, H2. auto.
Qed.

Lemma inside_fields (b : bounds) (p : XY.t) :
  inside b p = true
  <-> ((minX b <=? XY.x p)%js = true /\ (XY.x p <=? maxX b)%js = true)
      /\ (minY b <=? XY.y p)%js = true /\ (XY.y p <=? maxY b)%js = true.
Proof. unfold inside. rewrite !andb_true_iff. tauto. Qed.

Lemma extend_inside_new (b : bounds) (p : XY.t) :
  nan_free_bounds b = true -> nan_free_point p = true -> inside (extend b p) p = true.
Proof.
  intros Hb Hp. apply nan_free_bounds_fields in Hb as (H1 & H2 & H3 & H4).
  apply nan_free_point_fields in Hp as [Hx Hy].
  apply inside_fields. unfold extend. cbn [minX minY maxX maxY].
  repeat split; auto using min_le_r, max_ge_r.
Qed.

Lemma extend_inside_old (b : bounds) (p q : XY.t) :
  nan_free_bounds b = true -> nan_free_point p = true ->
  inside b q = true -> inside (extend b p) q = true.
Proof.
  intros Hb Hp Hq. apply nan_free_bounds_fields in Hb as (H1 & H2 & H3 & H4).
  apply nan_free_point_fields in Hp as [Hx Hy].
  apply inside_fields in Hq as [[Q1 Q2] [Q3 Q4]].
  apply inside_fields. unfold extend. cbn [minX minY maxX maxY].
  repeat split.
  - apply (leb_trans _ (minX b)); [apply min_le_l; assumption | exact Q1].
  - apply (leb_trans _ (maxX b)); [exact Q2 | apply max_ge_l; assumption].
  - apply (leb_trans _ (minY b)); [apply min_le_l; assumption | exact Q3].
  - apply (leb_trans _ (maxY b)); [exact Q4 | apply max_ge_l; assumption].
Qed.

Lemma fold_inside_old (ls : list (jsnum * jsnum)) :
  forall (b : bounds) (q : XY.t),
    nan_free_bounds b = true -> forallb projects_nan_free ls = true ->
    inside b q = true -> inside (fold_left extend_leaf ls b) q = true.
Proof.
  induction ls as [| l ls IH]; intros b q Hb Hall Hq; [exact Hq |].
  simpl in Hall. apply andb_true_iff in Hall as [Hl Hall].
  simpl fold_left. apply IH; [apply extend_nan_free; assumption | exact Hall |].
  apply extend_inside_old; assumption.
Qed.

Lemma fold_inside (ls : list (jsnum * jsnum)) :
  forall b : bounds,
    nan_free_bounds b = true -> forallb projects_nan_free ls = true ->
    forall l, In l ls -> inside (fold_left extend_leaf ls b) (projected l) = true.
Proof.
  induction ls as [| l' ls IH]; intros b Hb Hall l Hin; [contradiction |].
  simpl in Hall. apply andb_true_iff in Hall as [Hl Hall].
  simpl fold_left. destruct Hin as [-> | Hin].
  - apply fold_inside_old; [apply extend_nan_free; assumption | exact Hall |].
    apply extend_inside_new; assumption.
  - apply IH; [apply extend_nan_free; assumption | exact Hall | exact Hin].
Qed.

(** A field of the bounds folded by an operation that returns one of its
    arguments holds its first value or the coordinate of a leaf. *)
Lemma fold_field_attained (field : bounds -> jsnum) (coordinate : XY.t -> jsnum)
    (op : jsnum -> jsnum -> jsnum) :
  (forall b p, field (extend b p) = op (field b) (coordinate p)) ->
  (forall a x, op a x = a \/ op a x = x) ->
  forall (ls : list (jsnum * jsnum)) (b : bounds),
    field (fold_left extend_leaf ls b) = field b
    \/ exists l, In l ls /\ field (fold_left extend_leaf ls b) = coordinate (projected l).
Proof.
  intros Hstep Hchoice. induction ls as [| l ls IH]; intros b; [left; reflexivity |].
  simpl fold_left. destruct (IH (extend_leaf b l)) as [H | (l' & Hin & H)].
  - rewrite H. unfold extend_leaf. rewrite Hstep.
    destruct (Hchoice (field b) (coordinate (lonLatToMercator (fst l) (snd l)))) as [E | E];
      rewrite E; [left; reflexivity | right].
    exists l. split; [left; reflexivity | reflexivity].
  - right. exists l'. split; [right; exact Hin | exact H].
Qed.

Lemma fold_field_attained_initial (field : bounds -> jsnum) (coordinate : XY.t -> jsnum)
    (op : jsnum -> jsnum -> jsnum) :
  (forall b p, field (extend b p) = op (field b) (coordinate p)) ->
  (forall a x, op a x = a \/ op a x = x) ->
  (forall x, op (field initialBounds) x = x) ->
  forall ls : list (jsnum * jsnum),
    ls <> [] ->
    exists l, In l ls
              /\ field (fold_left extend_leaf ls initialBounds) = coordinate (projected l).
Proof.
  intros Hstep Hchoice Hinit ls Hne. destruct ls as [| l0 ls]; [contradiction |].
  simpl fold_left.
  destruct (fold_field_attained field coordinate op Hstep Hchoice ls
              (extend_leaf initialBounds l0)) as [H | (l & Hin & H)].
  - exists l0. split; [left; reflexivity |].
    rewrite H. unfold extend_leaf. rewrite Hstep, Hinit. reflexivity.
  - exists l. split; [right; exact Hin | exact H].
Qed.

Lemma extend_swap (b : bounds) (p q : XY.t) :
  extend (extend b p) q = extend (extend b q) p.
Proof.
  unfold extend. cbn [minX minY maxX maxY].
  f_equal; auto using Math_min_swap, Math_max_swap.
Qed.

Lemma fold_permutation (ls ls' : list (jsnum * jsnum)) :
  Permutation ls ls' ->
  forall b, fold_left extend_leaf ls b = fold_left extend_leaf ls' b.
Proof.
  induction 1 as [| l ls ls' _ IH | l1 l2 ls | ls1 ls2 ls3 _ IH1 _ IH2]; intros b.
  - reflexivity.
  - simpl. apply IH.
  - simpl. unfold extend_leaf. rewrite extend_swap. reflexivity.
  - rewrite IH1. apply IH2.
Qed.

End ContainmentFacts.

(** X10.  The bounds of a FeatureCollection are a bounding box of its leaves,
    and the least one: when no leaf projects to [NaN], the projection of
    every leaf lies within them; and when a leaf is visited, each of the
    four fields is the coordinate of the projection of some leaf. *)
Theorem bounds_enclose_leaves (fs : list gfeature) :
  fs <> [] ->
  exists b : bounds,
    getBoundsOfGeojson (featureCollection fs) = Ok (Some b)
    /\ (forallb projects_nan_free (all_leaves fs) = true ->
        forall l, In l (all_leaves fs) -> inside b (projected l) = true)
    /\ (all_leaves fs <> [] ->
        (exists l, In l (all_leaves fs) /\ minX b = XY.x (projected l))
        /\ (exists l, In l (all_leaves fs) /\ minY b = XY.y (projected l))
        /\ (exists l, In l (all_leaves fs) /\ maxX b = XY.x (projected l))
        /\ (exists l, In l (all_leaves fs) /\ maxY b = XY.y (projected l))).
Proof.
  intros Hne. exists (fold_left extend_leaf (all_leaves fs) initialBounds).
  split; [| split].
  - rewrite getBounds_featureCollection. destruct fs; [contradiction | reflexivity].
  - intros Hall l Hin. apply fold_inside; [reflexivity | exact Hall | exact Hin].
  - intros Hleaf. repeat split.
    + apply (fold_field_attained_initial minX XY.x Math_min); auto using Math_min_choice.
      intros x. destruct x; reflexivity.
    + apply (fold_field_attained_initial minY XY.y Math_min); auto using Math_min_choice.
      intros x. destruct x; reflexivity.
    + apply (fold_field_attained_initial maxX XY.x Math_max); auto using Math_max_choice.
      intros x. destruct x; reflexivity.
    + apply (fold_field_attained_initial maxY XY.y Math_max); auto using Math_max_choice.
      intros x. destruct x; reflexivity.
Qed.

Lemma bounds_enclose_leaves_witness :
  exists b : bounds,
    getBoundsOfGeojson
      (featureCollection [Some (Point, Position (num 0) (num 0))]) = Ok (Some b)
    /\ inside b (projected (num 0, num 0)) = true.
Proof.
  destruct (@bounds_enclose_leaves [Some (Point, Position (num 0) (num 0))])
    as (b & Hb & Hin & _); [discriminate |].
  exists b. split; [exact Hb |].
  apply Hin.
  - unfold all_leaves, projects_nan_free. simpl. rewrite project_origin. reflexivity.
  - left. reflexivity.
Defined.

(** X11.  The bounds depend on the leaves only, not on their order nor on how
    they are grouped into features and geometries. *)
Theorem bounds_order_independent (fs fs' : list gfeature) :
  fs <> [] -> fs' <> [] ->
  Permutation (all_leaves fs) (all_leaves fs') ->
  getBoundsOfGeojson (featureCollection fs) = getBoundsOfGeojson (featureCollection fs').
Proof.
  intros Hne Hne' Hperm. rewrite !getBounds_featureCollection.
  destruct fs as [| g fs]; [contradiction |].
  destruct fs' as [| g' fs']; [contradiction |].
  rewrite (fold_permutation Hperm). reflexivity.
Qed.

Lemma bounds_order_independent_witness :
  getBoundsOfGeojson
    (featureCollection [Some (MultiPoint, Nested [Position (num 0) (num 0);
                                                  Position (num 10) (num 45)])])
  = getBoundsOfGeojson
      (featureCollection [Some (Point, Position (num 10) (num 45));
                          Some (Point, Position (num 0) (num 0))]).
Proof.
  apply bounds_order_independent; try discriminate.
  apply perm_swap.
Defined.

(* ================================================================== *)
(** * Further properties of the fit *)
(* ================================================================== *)

(** X13.  [fitBounds] touches the viewport only, and computes it from the bounds
    and the canvas alone: fitting twice gives the state of fitting once.
    Without a canvas, or without bounds, it changes nothing and draws
    nothing. *)
Theorem fitBounds_idempotent (styles : MergedStyles) (background : option string)
    (padding : jsnum) (cv : option canvas) (st : state) :
  let st1 := fst (fitBounds styles background padding cv st) in
  fst (fitBounds styles background padding cv st1) = st1
  /\ features st1 = features st
  /\ featureBounds st1 = featureBounds st
  /\ dpr st1 = dpr st
  /\ (cv = None \/ featureBounds st = None ->
      fitBounds styles background padding cv st = (st, ([], Ok tt))).
Proof.
  intros st1. subst st1. unfold fitBounds.
  destruct cv as [c |]; [| repeat split; reflexivity].
  destruct (featureBounds st) as [b |] eqn:Hb; simpl.
  - repeat split; try reflexivity.
    intros [H | H]; discriminate.
  - rewrite Hb. repeat split; reflexivity.
Qed.

Lemma fitBounds_idempotent_witness :
  fitBounds defaultStyles None (num 20) (Some canvas800) (initialState (num 1))
  = (initialState (num 1), ([], Ok tt)).
Proof.
  destruct (@fitBounds_idempotent defaultStyles None (num 20) (Some canvas800)
              (initialState (num 1))) as (_ & _ & _ & _ & H).
  apply H. right. reflexivity.
Defined.

(* ================================================================== *)
(** * Further properties of the renderer *)
(* ================================================================== *)

Section LoopFacts.

Context {A : Type}.
Variable body : A -> unit -> draw unit.

Lemma dfor_of_all_ok (xs : list A) :
  (forall a, In a xs -> snd (body a tt) = Ok tt) ->
  dfor_of body xs tt = (flat_map (fun a => fst (body a tt)) xs, Ok tt).
Proof.
  induction xs as [| a xs IH]; intros H; [reflexivity |].
  cbn [dfor_of flat_map]. unfold dbind.
  pose proof (H a (or_introl eq_refl)) as Ha.
  destruct (body a tt) as [t r]. simpl in Ha. subst r.
  rewrite IH by (intros b Hb; apply H; right; exact Hb). reflexivity.
Qed.

Lemma dfor_of_first_throw (xs ys : list A) (a : A) (e : error) :
  (forall b, In b xs -> snd (body b tt) = Ok tt) ->
  snd (body a tt) = Throw e ->
  dfor_of body (xs ++ a :: ys) tt
  = (flat_map (fun b => fst (body b tt)) xs ++ fst (body a tt), Throw e).
Proof.
  induction xs as [| b xs IH]; intros H Ha.
  - cbn [app dfor_of flat_map]. unfold dbind.
    destruct (body a tt) as [t r]. simpl in Ha. subst r. reflexivity.
  - cbn [app dfor_of flat_map]. unfold dbind.
    pose proof (H b (or_introl eq_refl)) as Hb.
    destruct (body b tt) as [t r]. simpl in Hb. subst r.
    rewrite IH by (try (intros c Hc; apply H; right; exact Hc); exact Ha).
    rewrite app_assoc. reflexivity.
Qed.

Lemma dfor_of_map_ok {C : Type} (f : C -> A) (t : C -> list call) (cs : list C) :
  (forall c, In c cs -> body (f c) tt = (t c, Ok tt)) ->
  dfor_of body (map f cs) tt = (flat_map t cs, Ok tt).
Proof.
  induction cs as [| c cs IH]; intros H; [reflexivity |].
  cbn [map dfor_of flat_map]. rewrite (H c (or_introl eq_refl)).
  unfold dbind. rewrite IH by (intros d Hd; apply H; right; exact Hd). reflexivity.
Qed.

End LoopFacts.

(** X14.  [render] paints the background, then draws the features in order: the
    calls are those of the backdrop followed by those of each feature.  At
    the first feature whose drawing raises an exception the rendering stops:
    the calls issued so far stay, the later features are not drawn.  Without
    a 2D context nothing is called. *)
Theorem render_in_order (styles : MergedStyles) (background : option string)
    (cv : canvas) (st : state) :
  let drawn f := drawFeature styles (vp st) (clientWidth cv) (clientHeight cv) f in
  (has2d cv = false -> render styles background (Some cv) st = ([], Ok tt))
  /\ (has2d cv = true ->
      (forall f, In f (features st) -> snd (drawn f) = Ok tt) ->
      render styles background (Some cv) st
      = (backdrop background cv st ++ flat_map (fun f => fst (drawn f)) (features st),
         Ok tt))
  /\ (has2d cv = true ->
      forall (before after : list ifeature) (f : ifeature) (e : error),
        features st = before ++ f :: after ->
        (forall g, In g before -> snd (drawn g) = Ok tt) ->
        snd (drawn f) = Throw e ->
        render styles background (Some cv) st
        = (backdrop background cv st
           ++ flat_map (fun g => fst (drawn g)) before ++ fst (drawn f),
           Throw e)).
Proof.
  intros drawn. split; [| split].
  - intros H. unfold render. rewrite H. reflexivity.
  - intros H Hok. unfold render, backdrop. rewrite H. simpl negb. cbv iota.
    pose proof (dfor_of_all_ok (fun f (_ : unit) => drawn f) (features st) Hok) as Hloop.
    unfold drawn in Hloop.
    destruct (str_set background); unfold dbind, emit; rewrite Hloop; reflexivity.
  - intros H before after f e Hfs Hok Hthrow.
    unfold render, backdrop. rewrite H, Hfs. simpl negb. cbv iota.
    pose proof (dfor_of_first_throw (fun f (_ : unit) => drawn f) before after f Hok Hthrow)
      as Hloop.
    unfold drawn in Hloop.
    destruct (str_set background); unfold dbind, emit; rewrite Hloop; reflexivity.
Qed.

Lemma render_in_order_witness :
  render defaultStyles None (Some canvas800) twoPoints
  = (backdrop None canvas800 twoPoints
     ++ flat_map (fun f => fst (drawFeature defaultStyles initialViewport
                                  (num 800) (num 600) f))
                 (features twoPoints),
     Ok tt).
Proof.
  destruct (@render_in_order defaultStyles None canvas800 twoPoints) as (_ & H & _).
  apply H; [reflexivity |].
  intros f Hf. simpl in Hf. destruct Hf as [<- | [<- | []]].
  - change (drawFeature defaultStyles (vp twoPoints) (clientWidth canvas800)
              (clientHeight canvas800) (stored (VNum (num 0)) point00))
      with (drawPoint defaultStyles initialViewport (num 800) (num 600)
              (VArr [VNum (num 0); VNum (num 0)]) tt).
    rewrite drawPoint_array. reflexivity.
  - change (drawFeature defaultStyles (vp twoPoints) (clientWidth canvas800)
              (clientHeight canvas800) (stored (VNum (num 1)) point00))
      with (drawPoint defaultStyles initialViewport (num 800) (num 600)
              (VArr [VNum (num 0); VNum (num 0)]) tt).
    rewrite drawPoint_array. reflexivity.
Defined.

Section MultiFacts.

Variable styles : MergedStyles.
Variable v : viewport.
Variables ctxW ctxH : jsnum.

Lemma drawLines_arrays (lines : list (list value)) :
  forallb (forallb is_array) lines = true ->
  dfor_of (fun ring (_ : unit) => _ <~ drawRing v ctxW ctxH ring false ;; dret tt)
          (map VArr lines) tt
  = (flat_map (fun line => path false (pixels v ctxW ctxH line)) lines, Ok tt).
Proof.
  intros Harr. apply dfor_of_map_ok. intros line Hin.
  rewrite (drawRing_arrays v ctxW ctxH line false
             (proj1 (forallb_forall _ _) Harr line Hin)).
  simpl. rewrite app_nil_r. reflexivity.
Qed.

Lemma drawPolygons_arrays (polys : list (list (list value))) :
  forallb (forallb (forallb is_array)) polys = true ->
  dfor_of (fun poly (_ : unit) =>
             emit beginPath ;;;
             rings <~ lift (iterate poly) ;;
             _ <~ dfor_of (drawRing v ctxW ctxH) rings false ;;
             dwhen (str_set (FillStyle.fill (mpolygon styles)))
               (fun s => emit (set_fillStyle s) ;;; emit fill) ;;;
             dwhen (str_set (FillStyle.stroke (mpolygon styles)))
               (fun s =>
                  emit (set_lineWidth
                          (num_or (FillStyle.lineWidth (mpolygon styles)) (num 1))) ;;;
                  emit (set_strokeStyle s) ;;; emit stroke))
          (map (fun rings => VArr (map VArr rings)) polys) tt
  = (flat_map (fun rings =>
                 beginPath
                 :: path false (pixels v ctxW ctxH (List.concat rings))
                 ++ paint (FillStyle.fill (mpolygon styles))
                          (FillStyle.stroke (mpolygon styles))
                          (FillStyle.lineWidth (mpolygon styles))) polys,
     Ok tt).
Proof.
  intros Harr. apply dfor_of_map_ok. intros rings Hin. simpl.
  rewrite (drawRings_arrays v ctxW ctxH rings
             (proj1 (forallb_forall _ _) Harr rings Hin) false).
  unfold paint, dwhen.
  destruct (str_set (FillStyle.fill (mpolygon styles)));
    destruct (str_set (FillStyle.stroke (mpolygon styles))); simpl;
    rewrite ?app_nil_r; reflexivity.
Qed.

End MultiFacts.

(** C4, as the code has it.  For each of the six geometry types, when the
    coordinates are arrays at every level, a coordinate whose entries 0 and
    1 are not both numbers is skipped within its path or marker loop and
    the other coordinates of the feature are still drawn: the calls issued
    are those of the pixels of the numeric pairs, in order, and nothing is
    raised.  Every coordinate that is a pair of numbers issues its
    [moveTo], [lineTo] or [arc] call at its pixel, whether or not that
    pixel is finite. *)
Theorem drawFeature_skips_non_numeric (styles : MergedStyles) (v : viewport)
    (ctxW ctxH : jsnum) (i : value) (pt cs : list value)
    (lines rings : list (list value)) (polys : list (list (list value))) :
  forallb is_array cs = true ->
  forallb (forallb is_array) lines = true ->
  forallb (forallb is_array) rings = true ->
  forallb (forallb (forallb is_array)) polys = true ->
  let ps := pixels v ctxW ctxH in
  let draws t c := drawFeature styles v ctxW ctxH (stored i (geometry t c)) in
  let filled rs :=
    beginPath
    :: path false (ps (List.concat rs))
    ++ paint (FillStyle.fill (mpolygon styles)) (FillStyle.stroke (mpolygon styles))
             (FillStyle.lineWidth (mpolygon styles)) in
  draws "Point"%string (VArr pt) = (flat_map (marker styles) (ps [VArr pt]), Ok tt)
  /\ draws "MultiPoint"%string (VArr cs) = (flat_map (marker styles) (ps cs), Ok tt)
  /\ draws "LineString"%string (VArr cs)
     = (lineHeader styles ++ path false (ps cs) ++ [stroke; setLineDash []], Ok tt)
  /\ draws "MultiLineString"%string (VArr (map VArr lines))
     = (lineHeader styles
        ++ flat_map (fun line => path false (ps line)) lines
        ++ [stroke; setLineDash []], Ok tt)
  /\ draws "Polygon"%string (VArr (map VArr rings)) = (filled rings, Ok tt)
  /\ draws "MultiPolygon"%string (VArr (map (fun rs => VArr (map VArr rs)) polys))
     = (flat_map filled polys, Ok tt)
  /\ (forall (lon lat : jsnum) (rest : list value),
        In (VArr (VNum lon :: VNum lat :: rest)) cs ->
        let p := pixel v ctxW ctxH lon lat in
        (In (moveTo (XY.x p) (XY.y p)) (fst (draws "LineString"%string (VArr cs)))
         \/ In (lineTo (XY.x p) (XY.y p)) (fst (draws "LineString"%string (VArr cs))))
        /\ In (arc (XY.x p) (XY.y p)
                   (num_or (PointStyle.radius (mpoint styles)) (num 3))
                   (num 0) (Math_PI * num 2)%js)
              (fst (draws "MultiPoint"%string (VArr cs)))).
Proof.
  intros Hcs Hlines Hrings Hpolys ps draws filled.
  assert (Hline : draws "LineString"%string (VArr cs)
                  = (lineHeader styles ++ path false (ps cs) ++ [stroke; setLineDash []],
                     Ok tt))
    by (apply drawFeature_lineString; exact Hcs).
  assert (Hpoints : draws "MultiPoint"%string (VArr cs)
                    = (flat_map (marker styles) (ps cs), Ok tt))
    by (apply drawFeature_multiPoint; exact Hcs).
  split; [| split; [exact Hpoints | split; [exact Hline | split; [| split; [| split]]]]].
  - subst draws. unfold drawFeature. cbn -[drawPoint].
    rewrite drawPoint_array. reflexivity.
  - subst draws. unfold drawFeature, lineHeader. simpl.
    rewrite (drawLines_arrays v ctxW ctxH lines Hlines).
    destruct (LineStyle.lineDash (mline styles)); simpl;
      rewrite ?app_nil_r; reflexivity.
  - apply drawFeature_polygon. exact Hrings.
  - pose proof (drawPolygons_arrays styles v ctxW ctxH polys Hpolys) as H.
    subst draws filled. unfold drawFeature. simpl. simpl in H. rewrite H. reflexivity.
  - intros lon lat rest Hin p.
    pose proof (@pixels_in v ctxW ctxH cs lon lat rest Hin) as Hp.
    fold p in Hp. fold ps in Hp.
    rewrite Hline, Hpoints. cbn [fst]. split.
    + destruct (path_in false (ps cs) p Hp) as [H | H]; [left | right];
        apply in_or_app; right; apply in_or_app; left; exact H.
    + apply in_flat_map. exists p. split; [exact Hp |].
      right. left. reflexivity.
Qed.

Lemma drawFeature_skips_non_numeric_witness :
  drawFeature defaultStyles initialViewport (num 800) (num 600)
    (stored (VNum (num 0))
       (geometry "LineString" (VArr (VArr [VStr "north"; VNum (num 0)] :: polarLine))))
  = (lineHeader defaultStyles
     ++ [moveTo (Fin 400) (Fin 300); lineTo (Fin 400) NaN]
     ++ [stroke; setLineDash []], Ok tt).
Proof.
  destruct (@drawFeature_skips_non_numeric defaultStyles initialViewport
              (num 800) (num 600) (VNum (num 0)) []
              (VArr [VStr "north"; VNum (num 0)] :: polarLine) [] [] []
              eq_refl eq_refl eq_refl eq_refl)
    as (_ & _ & H & _).
  cbv zeta in H.
  rewrite (@pixels_cons_none initialViewport (num 800) (num 600)
             (VArr [VStr "north"; VNum (num 0)]) polarLine eq_refl) in H.
  rewrite polarLine_pixels in H. exact H.
Defined.

(** X15.  A MultiLineString is drawn as one path, begun once and stroked once,
    in which every line starts with its own [moveTo]; the dash is reset
    after the stroke.  A MultiPolygon is drawn polygon by polygon, each
    with its own path, filled then stroked; inside a polygon only the first
    vertex of the first ring is reached by [moveTo], the later rings are
    joined to it by [lineTo]. *)
Theorem drawFeature_multi (styles : MergedStyles) (v : viewport) (ctxW ctxH : jsnum)
    (i : value) (lines : list (list value)) (polys : list (list (list value))) :
  forallb (forallb is_array) lines = true ->
  forallb (forallb (forallb is_array)) polys = true ->
  drawFeature styles v ctxW ctxH
    (stored i (geometry "MultiLineString" (VArr (map VArr lines))))
  = (lineHeader styles
     ++ flat_map (fun line => path false (pixels v ctxW ctxH line)) lines
     ++ [stroke; setLineDash []], Ok tt)
  /\ drawFeature styles v ctxW ctxH
       (stored i (geometry "MultiPolygon"
                    (VArr (map (fun rings => VArr (map VArr rings)) polys))))
     = (flat_map (fun rings =>
                    beginPath
                    :: path false (pixels v ctxW ctxH (List.concat rings))
                    ++ paint (FillStyle.fill (mpolygon styles))
                             (FillStyle.stroke (mpolygon styles))
                             (FillStyle.lineWidth (mpolygon styles))) polys,
        Ok tt).
Proof.
  intros Hlines Hpolys. split.
  - unfold drawFeature, lineHeader. simpl.
    rewrite (drawLines_arrays v ctxW ctxH lines Hlines).
    destruct (LineStyle.lineDash (mline styles)); simpl;
      rewrite ?app_nil_r; reflexivity.
  - pose proof (drawPolygons_arrays styles v ctxW ctxH polys Hpolys) as H.
    unfold drawFeature. simpl. simpl in H. rewrite H. reflexivity.
Qed.

Lemma drawFeature_multi_witness :
  drawFeature defaultStyles initialViewport (num 800) (num 600)
    (stored (VNum (num 0))
       (geometry "MultiLineString" (VArr (map VArr [polarLine; polarLine]))))
  = (lineHeader defaultStyles
     ++ ([moveTo (Fin 400) (Fin 300); lineTo (Fin 400) NaN]
         ++ [moveTo (Fin 400) (Fin 300); lineTo (Fin 400) NaN])
     ++ [stroke; setLineDash []], Ok tt).
Proof.
  destruct (@drawFeature_multi defaultStyles initialViewport (num 800) (num 600)
              (VNum (num 0)) [polarLine; polarLine] [] eq_refl eq_refl) as [H _].
  cbn [flat_map] in H. rewrite polarLine_pixels in H. rewrite app_nil_r in H. exact H.
Defined.

(* ================================================================== *)
(** * Further properties of the hit-tester *)
(* ================================================================== *)

Section BlindFacts.

Variable styles : MergedStyles.
Variable v : viewport.
Variables cssW cssH : jsnum.
Variables x y : jsnum.

Lemma hit_blind_false (f : ifeature) :
  hit_blind f = true -> hitFeature styles v cssW cssH x y f = Ok false.
Proof.
  unfold hit_blind, hitFeature.
  destruct (get_prop (feature f) "geometry") as [geom | e]; [| discriminate].
  simpl bind. destruct (to_boolean geom) eqn:Hg; [| reflexivity].
  simpl negb. cbv iota.
  destruct (get_prop geom "type") as [t | e]; [| discriminate].
  simpl bind. intros H. apply negb_true_iff in H.
  apply orb_false_iff in H as [H H5]. apply orb_false_iff in H as [H H4].
  apply orb_false_iff in H as [H H3]. apply orb_false_iff in H as [H1 H2].
  destruct (get_prop geom "coordinates") as [c | e] eqn:Hc.
  - simpl bind. rewrite H1, H2, H3, H4, H5. reflexivity.
  - destruct geom; simpl in Hc, Hg; discriminate.
Qed.

Lemma first_match_filter (fs : list ifeature) :
  first_match (hitFeature styles v cssW cssH x y) fs
  = first_match (hitFeature styles v cssW cssH x y)
                (filter (fun f => negb (hit_blind f)) fs).
Proof.
  induction fs as [| f fs IH]; [reflexivity |].
  simpl. destruct (hit_blind f) eqn:Hb; simpl.
  - rewrite (@hit_blind_false f Hb). simpl. exact IH.
  - destruct (hitFeature styles v cssW cssH x y f) as [[|] | e]; simpl;
      [reflexivity | exact IH | reflexivity].
Qed.

End BlindFacts.

(** X16.  The hit-test passes over the features it is blind to: those without
    geometry and those of a type it does not handle, MultiPoint among
    them, although MultiPoint features are drawn.  Removing them from the
    list changes no result. *)
Theorem hitTest_blind (styles : MergedStyles) (cv : canvas) (st : state) (x y : jsnum) :
  hitTest styles (Some cv) st x y
  = hitTest styles (Some cv)
      (with_features st (filter (fun f => negb (hit_blind f)) (features st))) x y
  /\ (forall (i c : value), hit_blind (stored i (geometry "MultiPoint" c)) = true)
  /\ (forall (i : value), hit_blind (stored i VNull) = true).
Proof.
  split; [| split; reflexivity].
  unfold hitTest, with_features. cbn [features vp].
  rewrite !hitLoop_reverse, <- filter_rev. apply first_match_filter.
Qed.

Section LineFacts.

Variable styles : MergedStyles.
Variable v : viewport.
Variables cssW cssH : jsnum.
Variables x y : jsnum.

Lemma hitLine_segments (tolerance : jsnum) (rest : list (jsnum * jsnum)) :
  forall pre : list (jsnum * jsnum),
    for_first
      (fun vi =>
         a <- get_index (lineCoordinates (pre ++ rest)) vi ;;
         b <- get_index (lineCoordinates (pre ++ rest)) (vi + 1) ;;
         pa <- toPixel v cssW cssH a ;;
         pb <- toPixel v cssW cssH b ;;
         let d := distanceToSegment x y (XY.x pa) (XY.y pa) (XY.x pb) (XY.y pb) in
         Ok (d <=? tolerance)%js)
      (seq (List.length pre) (List.length rest - 1))
    = Ok (existsb (near_segment x y tolerance)
            (segments (map (fun l => pixel v cssW cssH (fst l) (snd l)) rest))).
Proof.
  induction rest as [| a rest IH]; intros pre; [reflexivity |].
  destruct rest as [| b rest]; [reflexivity |].
  replace (List.length (a :: b :: rest) - 1)%nat with (S (List.length (b :: rest) - 1))
    by (simpl; lia).
  cbn [seq for_first].
  assert (Ha : get_index (lineCoordinates (pre ++ a :: b :: rest)) (List.length pre)
               = Ok (position (fst a) (snd a))).
  { unfold lineCoordinates, get_index. rewrite map_app. cbn [map].
    rewrite <- (length_map (fun l => position (fst l) (snd l)) pre).
    rewrite nth_middle. reflexivity. }
  assert (Hb : get_index (lineCoordinates (pre ++ a :: b :: rest)) (List.length pre + 1)
               = Ok (position (fst b) (snd b))).
  { unfold lineCoordinates, get_index.
    replace (pre ++ a :: b :: rest) with ((pre ++ [a]) ++ b :: rest)
      by (rewrite <- app_assoc; reflexivity).
    rewrite map_app. cbn [map].
    replace (List.length pre + 1)%nat
      with (List.length (map (fun l => position (fst l) (snd l)) (pre ++ [a])))
      by (rewrite length_map, length_app; reflexivity).
    rewrite nth_middle. reflexivity. }
  rewrite Ha, Hb. cbn [bind].
  change (toPixel v cssW cssH (position (fst a) (snd a)))
    with (Ok (pixel v cssW cssH (fst a) (snd a))).
  change (toPixel v cssW cssH (position (fst b) (snd b)))
    with (Ok (pixel v cssW cssH (fst b) (snd b))).
  cbn [bind map segments tl combine existsb].
  unfold near_segment at 1. cbn [fst snd].
  destruct (_ <=? tolerance)%js; [reflexivity |]. cbn [orb].
  specialize (IH (pre ++ [a])).
  rewrite <- app_assoc in IH. cbn [app] in IH.
  rewrite length_app in IH. cbn [List.length] in IH.
  replace (S (List.length pre)) with (List.length pre + 1)%nat by lia.
  exact IH.
Qed.

End LineFacts.

(** X17.  A LineString feature is hit exactly when one of its segments, between
    the pixels of two consecutive positions, passes within the tolerance
    [(lineWidth || 2) + 6] of the query.  With fewer than two positions
    there is no segment: the line is never hit. *)
Theorem hitFeature_lineString (styles : MergedStyles) (v : viewport)
    (cssW cssH x y : jsnum) (i : value) (ps : list (jsnum * jsnum)) :
  hitFeature styles v cssW cssH x y
    (stored i (geometry "LineString" (lineCoordinates ps)))
  = Ok (existsb (near_segment x y (lineTolerance styles))
          (segments (map (fun l => pixel v cssW cssH (fst l) (snd l)) ps)))
  /\ ((List.length ps < 2)%nat ->
      hitFeature styles v cssW cssH x y
        (stored i (geometry "LineString" (lineCoordinates ps))) = Ok false).
Proof.
  assert (H : hitFeature styles v cssW cssH x y
                (stored i (geometry "LineString" (lineCoordinates ps)))
              = Ok (existsb (near_segment x y (lineTolerance styles))
                      (segments (map (fun l => pixel v cssW cssH (fst l) (snd l)) ps)))).
  { unfold hitFeature. simpl. unfold hitLine.
    change (segment_count (lineCoordinates ps))
      with (Ok (List.length (map (fun l => position (fst l) (snd l)) ps) - 1)%nat).
    rewrite length_map. cbn [bind].
    pose proof (hitLine_segments v cssW cssH x y (lineTolerance styles) ps []) as Hs.
    cbn [app List.length] in Hs. unfold lineTolerance in *. rewrite Hs.
    destruct (existsb _ _); reflexivity. }
  split; [exact H |].
  intros Hlen. rewrite H.
  destruct ps as [| a [| b ps]]; [reflexivity | reflexivity | simpl in Hlen; lia].
Qed.

Lemma hitFeature_lineString_witness :
  hitFeature defaultStyles initialViewport (num 800) (num 600) (Fin 400) (Fin 300)
    (stored (VNum (num 0)) (geometry "LineString" (lineCoordinates [(num 0, num 0)])))
  = Ok false.
Proof.
  apply (@hitFeature_lineString defaultStyles initialViewport (num 800) (num 600)
           (Fin 400) (Fin 300) (VNum (num 0)) [(num 0, num 0)]).
  simpl. lia.
Defined.

(* ================================================================== *)
(** * The pointer handlers *)
(* ================================================================== *)

Lemma strict_neq_self (a : value) : self_equal a = true -> strict_neq a a = Ok false.
Proof.
  destruct a as [| | b | n | s | items | props]; simpl; try discriminate; try reflexivity.
  - intros _. rewrite eqb_reflx. reflexivity.
  - destruct n; simpl; try discriminate; try reflexivity.
    intros _. unfold eqb. simpl. rewrite Rcmp_eq by reflexivity. reflexivity.
  - intros _. rewrite String.eqb_refl. reflexivity.
Qed.

(** X18.  The hover callback is called on a change only: a move calls it at
    most once, and when the identifier it leaves in [lastHoverId] equals
    itself under [===], the same move repeated calls nothing and leaves
    the identifier in place. *)
Theorem hover_on_change (styles : MergedStyles) (cv : canvas) (box : rect) (st : state)
    (hasHover : bool) (ev : mouse) (lastHoverId newId : value) (called : list notice) :
  onMove styles cv box st hasHover ev lastHoverId = Ok (newId, called) ->
  (List.length called <= 1)%nat
  /\ (self_equal newId = true ->
      onMove styles cv box st hasHover ev newId = Ok (newId, [])).
Proof.
  unfold onMove.
  destruct (hitTest styles (Some cv) st _ _) as [hit | e]; [| discriminate].
  cbn [bind].
  set (hitId := match hit with Some f => id f | None => VNull end).
  destruct (strict_neq hitId lastHoverId) as [[|] | e] eqn:Hneq; cbn [bind];
    intros H; try discriminate; injection H as <- <-.
  - split; [destruct hasHover; simpl; lia |].
    intros Hself. rewrite (strict_neq_self _ Hself). reflexivity.
  - split; [simpl; lia |]. intros _. rewrite Hneq. reflexivity.
Qed.

Lemma hover_on_change_witness :
  onMove defaultStyles canvas800 (mkRect (num 0) (num 0)) twoPoints true
         (mkMouse (Fin 400) (Fin 300)) (VNum (num 1))
  = Ok (VNum (num 1), []).
Proof.
  assert (Hhit : hitTest defaultStyles (Some canvas800) twoPoints
                   (Fin 400 - num 0)%js (Fin 300 - num 0)%js
                 = Ok (Some (stored (VNum (num 1)) point00))).
  { replace (Fin 400 - num 0)%js with (Fin 400) by (unfold sub, num; simpl; f_equal; lra).
    replace (Fin 300 - num 0)%js with (Fin 300) by (unfold sub, num; simpl; f_equal; lra).
    unfold hitTest. rewrite hitLoop_reverse. unfold twoPoints, canvas800.
    cbn [features vp clientWidth clientHeight rev app first_match].
    rewrite (@hitFeature_point defaultStyles initialViewport (num 800) (num 600)
               (Fin 400) (Fin 300) (stored (VNum (num 1)) point00) (num 0) (num 0) eq_refl).
    rewrite pixel_origin. simpl XY.x. simpl XY.y.
    rewrite !sub_self by reflexivity. rewrite hypot_zero.
    unfold hitRadius, leb, num_or, or_else, truthy, num. simpl.
    repeat (progress (simpl; rcmp)). reflexivity. }
  assert (Hfirst : onMove defaultStyles canvas800 (mkRect (num 0) (num 0)) twoPoints true
                     (mkMouse (Fin 400) (Fin 300)) VNull
                   = Ok (VNum (num 1),
                         [featureHover (synthetic point00) (VNum (num 1))])).
  { unfold onMove. cbn [clientX clientY left top]. rewrite Hhit. reflexivity. }
  apply (@hover_on_change defaultStyles canvas800 (mkRect (num 0) (num 0)) twoPoints true
           (mkMouse (Fin 400) (Fin 300)) VNull (VNum (num 1)) _ Hfirst).
  reflexivity.
Defined.

(* ================================================================== *)
(** * Polygons under the hit-test, and a round trip *)
(* ================================================================== *)

Section PolygonFacts.

Variable styles : MergedStyles.
Variable v : viewport.
Variables cssW cssH : jsnum.
Variables x y : jsnum.

Lemma for_first_existsb {A : Type} (body : A -> result bool) (t : A -> bool)
    (xs : list A) :
  (forall a, In a xs -> body a = Ok (t a)) ->
  for_first body xs = Ok (existsb t xs).
Proof.
  induction xs as [| a xs IH]; intros H; [reflexivity |].
  simpl. rewrite (H a (or_introl eq_refl)). simpl.
  destruct (t a); [reflexivity |]. apply IH. intros b Hb. apply H. right. exact Hb.
Qed.

Lemma ring_pixels (ps : list (jsnum * jsnum)) :
  map_result (fun coord => c <- toPixel v cssW cssH coord ;; Ok (XY.x c, XY.y c))
             (map (fun l => position (fst l) (snd l)) ps)
  = Ok (ringPixels v cssW cssH ps).
Proof.
  induction ps as [| l ps IH]; [reflexivity |].
  cbn [map map_result].
  change (toPixel v cssW cssH (position (fst l) (snd l)))
    with (Ok (pixel v cssW cssH (fst l) (snd l))).
  cbn [bind]. rewrite IH. reflexivity.
Qed.

Lemma hitPolygon_outer (outer : list (jsnum * jsnum)) (holes : list value) :
  hitPolygon v cssW cssH x y (polygonCoordinates outer holes)
  = Ok (pointInPolygon x y (ringPixels v cssW cssH outer)).
Proof.
  unfold hitPolygon, polygonCoordinates, lineCoordinates. cbn [get_index nth bind array_map].
  rewrite ring_pixels. reflexivity.
Qed.

End PolygonFacts.

(** X19.  A Polygon is hit exactly when the ray-casting test accepts the query
    on the pixels of its outer ring; what follows the outer ring, the
    holes, has no part in it.  A MultiPolygon is hit when one of its
    polygons is. *)
Theorem hitFeature_polygon (styles : MergedStyles) (v : viewport)
    (cssW cssH x y : jsnum) (i : value) (outer : list (jsnum * jsnum))
    (holes : list value) (polys : list (list (jsnum * jsnum) * list value)) :
  hitFeature styles v cssW cssH x y
    (stored i (geometry "Polygon" (polygonCoordinates outer holes)))
  = Ok (pointInPolygon x y (ringPixels v cssW cssH outer))
  /\ hitFeature styles v cssW cssH x y
       (stored i (geometry "MultiPolygon"
                    (VArr (map (fun p => polygonCoordinates (fst p) (snd p)) polys))))
     = Ok (existsb (fun p => pointInPolygon x y (ringPixels v cssW cssH (fst p))) polys).
Proof.
  split.
  - change (hitFeature styles v cssW cssH x y
              (stored i (geometry "Polygon" (polygonCoordinates outer holes))))
      with (for_first (hitPolygon v cssW cssH x y) [polygonCoordinates outer holes]).
    rewrite (for_first_existsb (hitPolygon v cssW cssH x y)
               (fun _ => pointInPolygon x y (ringPixels v cssW cssH outer))).
    + simpl. rewrite orb_false_r. reflexivity.
    + intros a [<- | []]. apply hitPolygon_outer.
  - change (hitFeature styles v cssW cssH x y
              (stored i (geometry "MultiPolygon"
                           (VArr (map (fun p => polygonCoordinates (fst p) (snd p)) polys)))))
      with (for_first (hitPolygon v cssW cssH x y)
              (map (fun p => polygonCoordinates (fst p) (snd p)) polys)).
    induction polys as [| [outer' holes'] polys IH]; [reflexivity |].
    cbn [map for_first existsb fst snd]. rewrite hitPolygon_outer. cbn [bind].
    destruct (pointInPolygon _ _ _); [reflexivity | exact IH].
Qed.

Section FiniteFit.

Local Open Scope R_scope.

Lemma div_fin (a b : R) : b <> 0 -> (Fin a / Fin b)%js = Fin (a / b).
Proof.
  intros H. simpl. destruct (Rcmp_spec b 0); [contradiction | reflexivity | reflexivity].
Qed.

Lemma or_else_epsilon_fin (w : R) :
  exists w' : R, or_else (Fin w) epsilon = Fin w' /\ w' <> 0.
Proof.
  destruct (Rcmp_spec w 0) as [E | H | H].
  - exists (1 / 1000000). split; [| lra].
    apply or_else_falsy. left. f_equal. exact E.
  - exists w. split; [| lra].
    apply or_else_truthy; [intros E; injection E; lra | discriminate].
  - exists w. split; [| lra].
    apply or_else_truthy; [intros E; injection E; lra | discriminate].
Qed.

Lemma fitViewport_fin_any (x0 y0 x1 y1 cssW cssH padding : R) :
  exists s tx ty : R,
    fitViewport (Fin padding) (Fin cssW) (Fin cssH)
                (mkBounds (Fin x0) (Fin y0) (Fin x1) (Fin y1))
    = mkViewport (Fin s) (Fin tx) (Fin ty).
Proof.
  unfold fitViewport, worldW, worldH. cbn [minX minY maxX maxY].
  change (Fin x1 - Fin x0)%js with (Fin (x1 - x0)).
  change (Fin y1 - Fin y0)%js with (Fin (y1 - y0)).
  destruct (or_else_epsilon_fin (x1 - x0)) as (w & -> & Hw).
  destruct (or_else_epsilon_fin (y1 - y0)) as (h & -> & Hh).
  change (Fin cssW - Fin padding * num 2)%js with (Fin (cssW - padding * 2)).
  change (Fin cssH - Fin padding * num 2)%js with (Fin (cssH - padding * 2)).
  rewrite !div_fin by assumption. rewrite Math_min_fin.
  unfold num. simpl. rewrite !(Rcmp_gt (a := 2) (b := 0)) by lra.
  do 3 eexists. reflexivity.
Qed.

End FiniteFit.

(** X21.  A round trip through the component: load a bare Point geometry,
    fit it, and hit-test the pixel the point is drawn at.  The state then
    holds the one entry of the point, under the identifier 0; its viewport
    is the one fitted to the bounds of the point alone; and whenever that
    pixel is finite and the hit radius is not negative, the hit-test at it
    returns the entry. *)
Theorem load_fit_hit (styles : MergedStyles) (background : option string)
    (lon lat cssW cssH padding : jsnum) (context : bool) (devicePixelRatio : jsnum) :
  let gj := geometry "Point" (position lon lat) in
  let cv := mkCanvas cssW cssH context in
  let st1 := fst (buildInternalFeatures None gj (initialState devicePixelRatio)) in
  let st2 := fst (fitBounds styles background padding (Some cv) st1) in
  let c := pixel (vp st2) cssW cssH lon lat in
  features st2 = [entry None (synthetic gj) 0]
  /\ vp st2 = fitViewport padding cssW cssH
                (extend initialBounds (lonLatToMercator lon lat))
  /\ (is_finite (XY.x c) && is_finite (XY.y c) = true ->
      (num 0 <=? hitRadius styles)%js = true ->
      hitTest styles (Some cv) st2 (XY.x c) (XY.y c)
      = Ok (Some (entry None (synthetic gj) 0))).
Proof.
  intros gj cv st1 st2 c.
  assert (Hb : getBoundsOfGeojson gj
               = Ok (Some (extend initialBounds (lonLatToMercator lon lat))))
    by reflexivity.
  assert (H1 : st1 = mkState (mkViewport (num 1) (num 0) (num 0))
                       [entry None (synthetic gj) 0]
                       (Some (extend initialBounds (lonLatToMercator lon lat)))
                       devicePixelRatio).
  { subst st1. unfold buildInternalFeatures.
    change (extractFeatures gj) with (Ok [synthetic gj]). rewrite Hb. reflexivity. }
  assert (H2 : st2 = mkState (fitViewport padding cssW cssH
                                (extend initialBounds (lonLatToMercator lon lat)))
                       [entry None (synthetic gj) 0]
                       (featureBounds st1) devicePixelRatio).
  { subst st2. rewrite H1. reflexivity. }
  split; [rewrite H2; reflexivity | split; [rewrite H2; reflexivity |]].
  intros Hfin Hr. apply andb_true_iff in Hfin as [Hx Hy].
  set (w := fitViewport padding cssW cssH
              (extend initialBounds (lonLatToMercator lon lat))) in *.
  assert (Hpx : pixel w cssW cssH lon lat = c) by (subst c; rewrite H2; reflexivity).
  clearbody c. clearbody st2. subst st2.
  unfold hitTest. rewrite hitLoop_reverse.
  cbn [features vp rev app first_match clientWidth clientHeight cv].
  unfold cv. cbn [clientWidth clientHeight].
  rewrite (@hitFeature_point styles w cssW cssH (XY.x c) (XY.y c)
             (entry None (synthetic gj) 0) lon lat eq_refl).
  rewrite Hpx.
  rewrite !sub_self by assumption.
  rewrite hypot_zero. change (Fin 0) with (num 0). rewrite Hr. reflexivity.
Qed.

Lemma load_fit_hit_witness :
  let gj := geometry "Point" (position (num 0) (num 0)) in
  let cv := mkCanvas (num 800) (num 600) true in
  let st1 := fst (buildInternalFeatures None gj (initialState (num 1))) in
  let st2 := fst (fitBounds defaultStyles None (num 20) (Some cv) st1) in
  let c := pixel (vp st2) (num 800) (num 600) (num 0) (num 0) in
  hitTest defaultStyles (Some cv) st2 (XY.x c) (XY.y c)
  = Ok (Some (entry None (synthetic gj) 0)).
Proof.
  destruct (@load_fit_hit defaultStyles None (num 0) (num 0) (num 800) (num 600)
              (num 20) true (num 1)) as (_ & Hvp & H).
  cbv zeta in *. apply H.
  - rewrite Hvp. unfold pixel. rewrite project_origin.
    change (extend initialBounds (XY.mk (Fin (1 / 2)) (Fin (1 / 2))))
      with (mkBounds (Fin (1 / 2)) (Fin (1 / 2)) (Fin (1 / 2)) (Fin (1 / 2))).
    destruct (fitViewport_fin_any (1 / 2) (1 / 2) (1 / 2) (1 / 2) 800 600 20)
      as (s & tx & ty & Hfit).
    unfold num. simpl IZR. rewrite Hfit. reflexivity.
  - unfold hitRadius, leb, num_or, or_else, truthy, num. simpl.
    repeat (progress (simpl; rcmp)). reflexivity.
Defined.

Lemma extract_throws_iff_witness :
  extractFeatures
    (VObj [("type", VStr "FeatureCollection"); ("features", VNum (num 5))]%string)
  = Throw TypeError.
Proof.
  apply extract_throws_iff. split; [reflexivity |].
  eexists. split; [reflexivity |]. left. split; [reflexivity |].
  unfold non_iterable, lookup, truthy, num. simpl. rcmp. reflexivity.
Defined.

(* ================================================================== *)
(** * Styles *)
(* ================================================================== *)

(** X22.  The styles are merged class by class, not field by field: a point
    style given by the caller replaces the default one whole.  If it gives
    no fill and no stroke, a marker is a bare arc, neither filled nor
    stroked; if it gives no radius, or the radius 0, the arc is drawn with
    the radius 3 while the hit-test reaches to 4 + 4 pixels. *)
Theorem point_style_replaces_default (styles : Styles) (p : PointStyle.t) (c : XY.t) :
  point styles = Some p ->
  let merged := mergedStyles styles in
  mpoint merged = p
  /\ (PointStyle.fill p = None -> PointStyle.stroke p = None ->
      drawMarker merged c
      = ([beginPath;
          arc (XY.x c) (XY.y c) (num_or (PointStyle.radius p) (num 3))
              (num 0) (Math_PI * num 2)%js], Ok tt))
  /\ (PointStyle.radius p = None \/ PointStyle.radius p = Some (Fin 0) ->
      num_or (PointStyle.radius (mpoint merged)) (num 3) = num 3
      /\ hitRadius merged = (num 4 + num 4)%js).
Proof.
  intros Hp merged. subst merged.
  assert (Hm : mpoint (mergedStyles styles) = p)
    by (unfold mergedStyles; cbn [mpoint]; rewrite Hp; reflexivity).
  split; [exact Hm | split].
  - intros Hf Hs. unfold drawMarker. rewrite Hm, Hf, Hs. reflexivity.
  - intros Hr. unfold hitRadius. rewrite Hm.
    destruct Hr as [-> | ->]; [split; reflexivity |].
    unfold num_or. rewrite !or_else_falsy by (left; reflexivity).
    split; reflexivity.
Qed.

Lemma point_style_replaces_default_witness :
  drawMarker
    (mergedStyles (mkStyles (Some (PointStyle.mk (Some (num 10)) None None None))
                            None None))
    (XY.mk (Fin 400) (Fin 300))
  = ([beginPath;
      arc (Fin 400) (Fin 300) (num_or (Some (num 10)) (num 3))
          (num 0) (Math_PI * num 2)%js], Ok tt).
Proof.
  destruct (@point_style_replaces_default
              (mkStyles (Some (PointStyle.mk (Some (num 10)) None None None)) None None)
              (PointStyle.mk (Some (num 10)) None None None)
              (XY.mk (Fin 400) (Fin 300)) eq_refl) as (_ & H & _).
  apply H; reflexivity.
Defined.
